(** * Job Satisfaction Prediction API: the request handler of [main.py]

    A shallow embedding of the FastAPI service in [main.py] and the proofs of
    its validation, normalization and error-mapping contract.

    - Python values are a tagged union ([value]); [int] is [Z], [float] is an
      IEEE 754 value ([spec_float]), [str] is [string] (UTF-8 bytes).
    - The one-row [pandas.DataFrame] the handler builds is an ordered list of
      (column name, cell) pairs.
    - The handler runs in a monad that threads the trace of observable events
      (log records and calls to the two artifacts) and may raise.
    - The fitted preprocessor and the trained model are opaque artifacts:
      they are parameters of the development, as are the library routines
      whose numeric results no property depends on. *)

From Stdlib Require Import ZArith List String Ascii Bool Lia.
From Stdlib Require Import DecimalString.
From Stdlib Require Import Floats.SpecFloat.
Import ListNotations.

Local Open Scope string_scope.
Local Open Scope Z_scope.

(** ** Python values and exceptions *)

Inductive value : Type :=
| VStr (s : string)
| VInt (z : Z)
| VFloat (f : spec_float).

(** [HTTPException] is FastAPI's; [Exception] stands for every other
    subclass of Python's [Exception], with its class name and message. *)
Inductive exn : Type :=
| HTTPException (status_code : Z) (detail : string)
| Exception (cls : string) (msg : string).

Definition result (A : Type) : Type := (exn + A)%type.

Definition zero : spec_float := S754_zero false.

Definition is_nan (f : spec_float) : bool :=
  match f with S754_nan => true | _ => false end.

(** [x < 0] on a Python float. *)
Definition float_lt0 (x : spec_float) : bool := SFltb x zero.

(** [str(z)] for a Python int. *)
Definition str_of_int (z : Z) : string := NilZero.string_of_int (Z.to_int z).

(** [a in b] for strings. *)
Fixpoint is_prefix (p s : string) : bool :=
  match p, s with
  | EmptyString, _ => true
  | String a p', String b s' => Ascii.eqb a b && is_prefix p' s'
  | String _ _, EmptyString => false
  end.

Fixpoint contains (needle hay : string) : bool :=
  is_prefix needle hay ||
  match hay with
  | EmptyString => false
  | String _ hay' => contains needle hay'
  end.

(** [x in xs] for a set or list of strings. *)
Definition str_in (x : string) (xs : list string) : bool :=
  existsb (String.eqb x) xs.

(** ** Numeric literals, as [pandas.to_numeric] reads a string cell

    The scanner follows the grammar of the library's string-to-number
    routine: blanks, an optional sign, digits with an optional fraction, an
    optional exponent, blanks; or one of the names of the special values,
    in any letter case. *)

Definition is_digit (c : ascii) : bool :=
  let n := nat_of_ascii c in (48 <=? n)%nat && (n <=? 57)%nat.

Definition is_space (c : ascii) : bool :=
  let n := nat_of_ascii c in (n =? 32)%nat || ((9 <=? n)%nat && (n <=? 13)%nat).

Definition lower (c : ascii) : ascii :=
  let n := nat_of_ascii c in
  if (65 <=? n)%nat && (n <=? 90)%nat then ascii_of_nat (n + 32) else c.

Fixpoint lowercase (s : string) : string :=
  match s with
  | EmptyString => EmptyString
  | String c s' => String (lower c) (lowercase s')
  end.

Fixpoint skip_spaces (s : string) : string :=
  match s with
  | String c s' => if is_space c then skip_spaces s' else s
  | EmptyString => EmptyString
  end.

(** The leading digits of [s] and what follows them. *)
Fixpoint span_digits (s : string) : string * string :=
  match s with
  | String c s' =>
      if is_digit c
      then let (ds, rest) := span_digits s' in (String c ds, rest)
      else (EmptyString, s)
  | EmptyString => (EmptyString, EmptyString)
  end.

Definition take_sign (s : string) : bool * string :=
  match s with
  | String "-"%char s' => (true, s')
  | String "+"%char s' => (false, s')
  | _ => (false, s)
  end.

Fixpoint digits_value (acc : Z) (ds : string) : Z :=
  match ds with
  | EmptyString => acc
  | String c ds' => digits_value (10 * acc + (Z.of_nat (nat_of_ascii c) - 48)) ds'
  end.

(** An exponent is consumed only when it has digits. *)
Definition take_exponent (s : string) : bool * string :=
  match s with
  | String c s' =>
      if Ascii.eqb (lower c) "e"%char then
        let (_, s1) := take_sign s' in
        let (ds, rest) := span_digits s1 in
        match ds with
        | EmptyString => (false, s)
        | _ => (true, rest)
        end
      else (false, s)
  | EmptyString => (false, s)
  end.

Inductive literal : Type :=
| LitInt (z : Z)            (* digits only: an integer *)
| LitDecimal                (* a fraction or an exponent: a float *)
| LitNaN
| LitInf (negative : bool).

Definition scan_decimal (s : string) : option literal :=
  let (neg, s1) := take_sign (skip_spaces s) in
  let (ip, s2) := span_digits s1 in
  let '(dot, fp, s3) :=
    match s2 with
    | String "."%char s' => let (fp, rest) := span_digits s' in (true, fp, rest)
    | _ => (false, EmptyString, s2)
    end in
  match ip, fp with
  | EmptyString, EmptyString => None
  | _, _ =>
      let (e, s4) := take_exponent s3 in
      match skip_spaces s4 with
      | EmptyString =>
          if dot || e then Some LitDecimal
          else Some (LitInt (if neg then - digits_value 0 ip else digits_value 0 ip))
      | _ => None
      end
  end.

Definition scan_special (s : string) : option literal :=
  let (neg, body) := take_sign (lowercase s) in
  if String.eqb body "nan" then Some LitNaN
  else if String.eqb body "inf" || String.eqb body "infinity" then Some (LitInf neg)
  else None.

Definition scan_number (s : string) : option literal :=
  match scan_decimal s with
  | Some l => Some l
  | None => scan_special s
  end.

(** ** The one-row DataFrame *)

Inductive dtype : Type := object | int64 | uint64 | float64.

Definition fits_int64 (z : Z) : bool :=
  (- 2 ^ 63 <=? z) && (z <? 2 ^ 63).

Definition fits_uint64 (z : Z) : bool :=
  (0 <=? z) && (z <? 2 ^ 64).

(** The dtype of the column built from one Python value: an integer gets
    int64, uint64 from 2^63 on, and object when neither holds it. *)
Definition dtype_of (v : value) : dtype :=
  match v with
  | VStr _ => object
  | VInt z => if fits_int64 z then int64
              else if fits_uint64 z then uint64 else object
  | VFloat _ => float64
  end.

(** Columns in the order they were given to the constructor; one row. *)
Definition DataFrame : Type := list (string * value).

Fixpoint get_col (col : string) (df : DataFrame) : option value :=
  match df with
  | [] => None
  | (c, v) :: df' => if String.eqb c col then Some v else get_col col df'
  end.

(** [df[col] = v]: replaces the column, or adds it at the end. *)
Fixpoint set_col (col : string) (v : value) (df : DataFrame) : DataFrame :=
  match df with
  | [] => [(col, v)]
  | (c, w) :: df' =>
      if String.eqb c col then (c, v) :: df' else (c, w) :: set_col col v df'
  end.

Definition dtypes (df : DataFrame) : list (string * dtype) :=
  map (fun cv => (fst cv, dtype_of (snd cv))) df.

(** [isnull]: a missing value is a float NaN (a [str] or an [int] never is). *)
Definition isnull (v : value) : bool :=
  match v with
  | VFloat f => is_nan f
  | _ => false
  end.

(** [df.isnull().values.any()] *)
Definition any_null (df : DataFrame) : bool :=
  existsb (fun cv => isnull (snd cv)) df.

(** [df.fillna(0)]: the missing cells live in float columns and become 0.0. *)
Definition fillna0 (df : DataFrame) : DataFrame :=
  map (fun cv => (fst cv, if isnull (snd cv) then VFloat zero else snd cv)) df.

(** ** The request: the 21 query parameters, in the order of the signature *)

Record Request : Type := mkRequest {
  Gender : string;
  MaritalStatus : string;
  Dept : string;
  EmpType : string;
  CommuteMode : string;
  EduLevel : string;
  JobLevel : string;
  Stress : Z;
  WorkEnv : Z;
  Age : Z;
  TeamSize : Z;
  haveOT : string;
  Workload : Z;
  TrainingHoursPerYear : spec_float;
  WLB : Z;
  SleepHours : spec_float;
  Experience : Z;
  NumReports : Z;
  CommuteDistance : Z;
  NumCompanies : Z;
  PhysicalActivityHours : spec_float
}.

Definition valid_job_levels : list string :=
  ["Mid"; "Intern/Fresher"; "Junior"; "Senior"; "Lead"].

Definition numeric_columns : list string :=
  ["JobLevel"; "Age"; "TeamSize"; "TrainingHoursPerYear"; "SleepHours";
   "Experience"; "NumReports"; "CommuteDistance"; "NumCompanies";
   "PhysicalActivityHours"].

Definition categorical_columns : list string :=
  ["Gender"; "MaritalStatus"; "Dept"; "EmpType"; "CommuteMode"; "EduLevel";
   "WorkEnv"; "haveOT"; "WLB"].

(** [pd.DataFrame({...})] of lines 86-108. *)
Definition input_frame (r : Request) : DataFrame :=
  [ ("Gender", VStr (Gender r));
    ("MaritalStatus", VStr (MaritalStatus r));
    ("Dept", VStr (Dept r));
    ("EmpType", VStr (EmpType r));
    ("CommuteMode", VStr (CommuteMode r));
    ("EduLevel", VStr (EduLevel r));
    ("JobLevel", VStr (JobLevel r));
    ("Stress", VInt (Stress r));
    ("WorkEnv", VInt (WorkEnv r));
    ("Age", VInt (Age r));
    ("TeamSize", VInt (TeamSize r));
    ("haveOT", VStr (haveOT r));
    ("Workload", VInt (Workload r));
    ("TrainingHoursPerYear", VFloat (TrainingHoursPerYear r));
    ("WLB", VInt (WLB r));
    ("SleepHours", VFloat (SleepHours r));
    ("Experience", VInt (Experience r));
    ("NumReports", VInt (NumReports r));
    ("CommuteDistance", VInt (CommuteDistance r));
    ("NumCompanies", VInt (NumCompanies r));
    ("PhysicalActivityHours", VFloat (PhysicalActivityHours r)) ].

(** The fixed [detail] strings of the handler. *)
Definition detail_JobLevel : string :=
  "Invalid JobLevel. Must be one of: Mid, Intern/Fresher, Junior, Senior, Lead.".
Definition detail_WorkEnv : string := "WorkEnv must be an integer between 1 and 5.".
Definition detail_Workload : string := "Workload must be an integer between 1 and 5.".
Definition detail_WLB : string := "WLB must be an integer between 1 and 5.".
Definition detail_TrainingHoursPerYear : string :=
  "TrainingHoursPerYear must be a non-negative number.".
Definition detail_SleepHours : string := "SleepHours must be a non-negative number.".
Definition detail_PhysicalActivityHours : string :=
  "PhysicalActivityHours must be a non-negative number.".
Definition detail_transform : string := "ข้อผิดพลาดในการแปลงข้อมูล".
Definition detail_predict : string := "ข้อผิดพลาดในการทำนาย".
Definition detail_internal : string := "ข้อผิดพลาดภายในเซิร์ฟเวอร์".

Inductive level : Type := INFO | WARNING | ERROR.

(** ** Startup: lines 15-25

    The module body runs once, in a process that has environment variables
    and a file system; [joblib.load] reads the file at the path it is given. *)

Section Startup.

Variable Artifact : Type.

Record World : Type := mkWorld {
  environ : string -> option string;
  files : string -> result Artifact
}.

Definition model_path : string :=
  "D:/COE64-335/Final Pro/FastAPI/best_random_forest_model.pkl".
Definition preprocessor_path : string :=
  "D:/COE64-335/Final Pro/FastAPI/preprocessor.pkl".

Definition detail_startup : string := "Error loading model or preprocessor".

Inductive boot_event : Type :=
| Load (path : string)
| Loaded                       (* logging.info: loaded successfully *)
| LoadFailed (e : exn).        (* logging.error, with the exception *)

(** [load(model_path)], then [load(preprocessor_path)]; the first failure
    is logged and raised as an [HTTPException] out of the module body. *)
Definition startup (w : World) : result (Artifact * Artifact) * list boot_event :=
  match files w model_path with
  | inr model =>
      match files w preprocessor_path with
      | inr preprocessor =>
          (inr (model, preprocessor), [Load model_path; Load preprocessor_path; Loaded])
      | inl e =>
          (inl (HTTPException 500 detail_startup),
           [Load model_path; Load preprocessor_path; LoadFailed e])
      end
  | inl e =>
      (inl (HTTPException 500 detail_startup), [Load model_path; LoadFailed e])
  end.

(** The paths the startup asked [load] for. *)
Fixpoint loaded_paths (tr : list boot_event) : list string :=
  match tr with
  | [] => []
  | Load p :: tr' => p :: loaded_paths tr'
  | _ :: tr' => loaded_paths tr'
  end.

Definition with_environ (env : string -> option string) (w : World) : World :=
  mkWorld env (files w).

End Startup.

Arguments mkWorld {Artifact}.
Arguments environ {Artifact}.
Arguments files {Artifact}.
Arguments startup {Artifact}.
Arguments with_environ {Artifact}.

(** ** The constraints of the validator, as properties of a request *)

Definition in_range (z : Z) : Prop := 1 <= z <= 5.
Definition out_of_range (z : Z) : Prop := z < 1 \/ 5 < z.

(** [x < 0] and [0 <= x] as IEEE 754 comparisons: NaN is neither. *)
Definition negative (x : spec_float) : Prop := SFltb x zero = true.
Definition non_negative (x : spec_float) : Prop := SFleb zero x = true.

(** Every field meets its constraint. *)
Definition satisfies_constraints (r : Request) : Prop :=
  In (JobLevel r) valid_job_levels /\
  in_range (WorkEnv r) /\ in_range (Workload r) /\ in_range (WLB r) /\
  non_negative (TrainingHoursPerYear r) /\
  non_negative (SleepHours r) /\
  non_negative (PhysicalActivityHours r).

(** No check of the validator rejects the request. *)
Definition accepted (r : Request) : Prop :=
  In (JobLevel r) valid_job_levels /\
  in_range (WorkEnv r) /\ in_range (Workload r) /\ in_range (WLB r) /\
  ~ negative (TrainingHoursPerYear r) /\
  ~ negative (SleepHours r) /\
  ~ negative (PhysicalActivityHours r).

(** The integer parameters that go through [to_numeric] are held by an
    int64 column. *)
Definition numeric_ints_fit (r : Request) : Prop :=
  fits_int64 (Age r) = true /\ fits_int64 (TeamSize r) = true /\
  fits_int64 (Experience r) = true /\ fits_int64 (NumReports r) = true /\
  fits_int64 (CommuteDistance r) = true /\ fits_int64 (NumCompanies r) = true.

(** The [detail] of the first check that fails, in the order of the checks. *)
Definition first_violation (r : Request) : option string :=
  if negb (str_in (JobLevel r) valid_job_levels) then Some detail_JobLevel
  else if negb ((1 <=? WorkEnv r) && (WorkEnv r <=? 5)) then Some detail_WorkEnv
  else if negb ((1 <=? Workload r) && (Workload r <=? 5)) then Some detail_Workload
  else if negb ((1 <=? WLB r) && (WLB r <=? 5)) then Some detail_WLB
  else if float_lt0 (TrainingHoursPerYear r) then Some detail_TrainingHoursPerYear
  else if float_lt0 (SleepHours r) then Some detail_SleepHours
  else if float_lt0 (PhysicalActivityHours r) then Some detail_PhysicalActivityHours
  else None.

Definition nan_to_zero (f : spec_float) : spec_float :=
  if is_nan f then zero else f.

(** The frame after the numeric coercion of an accepted request: [JobLevel]
    is no number. *)
Definition coerced (r : Request) : DataFrame :=
  [ ("Gender", VStr (Gender r));
    ("MaritalStatus", VStr (MaritalStatus r));
    ("Dept", VStr (Dept r));
    ("EmpType", VStr (EmpType r));
    ("CommuteMode", VStr (CommuteMode r));
    ("EduLevel", VStr (EduLevel r));
    ("JobLevel", VFloat S754_nan);
    ("Stress", VInt (Stress r));
    ("WorkEnv", VInt (WorkEnv r));
    ("Age", VInt (Age r));
    ("TeamSize", VInt (TeamSize r));
    ("haveOT", VStr (haveOT r));
    ("Workload", VInt (Workload r));
    ("TrainingHoursPerYear", VFloat (TrainingHoursPerYear r));
    ("WLB", VInt (WLB r));
    ("SleepHours", VFloat (SleepHours r));
    ("Experience", VInt (Experience r));
    ("NumReports", VInt (NumReports r));
    ("CommuteDistance", VInt (CommuteDistance r));
    ("NumCompanies", VInt (NumCompanies r));
    ("PhysicalActivityHours", VFloat (PhysicalActivityHours r)) ].

(** The frame an accepted request reaches the preprocessor as. *)
Definition normalized (r : Request) : DataFrame :=
  [ ("Gender", VStr (Gender r));
    ("MaritalStatus", VStr (MaritalStatus r));
    ("Dept", VStr (Dept r));
    ("EmpType", VStr (EmpType r));
    ("CommuteMode", VStr (CommuteMode r));
    ("EduLevel", VStr (EduLevel r));
    ("JobLevel", VFloat zero);
    ("Stress", VInt (Stress r));
    ("WorkEnv", VStr (str_of_int (WorkEnv r)));
    ("Age", VInt (Age r));
    ("TeamSize", VInt (TeamSize r));
    ("haveOT", VStr (haveOT r));
    ("Workload", VInt (Workload r));
    ("TrainingHoursPerYear", VFloat (nan_to_zero (TrainingHoursPerYear r)));
    ("WLB", VStr (str_of_int (WLB r)));
    ("SleepHours", VFloat (nan_to_zero (SleepHours r)));
    ("Experience", VInt (Experience r));
    ("NumReports", VInt (NumReports r));
    ("CommuteDistance", VInt (CommuteDistance r));
    ("NumCompanies", VInt (NumCompanies r));
    ("PhysicalActivityHours", VFloat (nan_to_zero (PhysicalActivityHours r))) ].


Definition with_JobLevel (j : string) (r : Request) : Request :=
  mkRequest (Gender r) (MaritalStatus r) (Dept r) (EmpType r) (CommuteMode r)
    (EduLevel r) j (Stress r) (WorkEnv r) (Age r) (TeamSize r) (haveOT r)
    (Workload r) (TrainingHoursPerYear r) (WLB r) (SleepHours r) (Experience r)
    (NumReports r) (CommuteDistance r) (NumCompanies r) (PhysicalActivityHours r).

(** ** Sample requests and artifacts *)

(** The binary64 value of an integer. *)
Definition f64 (z : Z) : spec_float := binary_normalize 53 1024 z 0 false.

(** The scenario of a well-formed request. *)
Definition sample_request : Request :=
  mkRequest "Male" "Single" "HR" "Full-Time" "Car" "Bachelor" "Senior"
    1 3 30 8 "No" 4 (f64 12) 2 (f64 7) 5 2 15 2 (f64 2).

Definition with_WorkEnv (z : Z) (r : Request) : Request :=
  mkRequest (Gender r) (MaritalStatus r) (Dept r) (EmpType r) (CommuteMode r)
    (EduLevel r) (JobLevel r) (Stress r) z (Age r) (TeamSize r) (haveOT r)
    (Workload r) (TrainingHoursPerYear r) (WLB r) (SleepHours r) (Experience r)
    (NumReports r) (CommuteDistance r) (NumCompanies r) (PhysicalActivityHours r).

Definition with_SleepHours (x : spec_float) (r : Request) : Request :=
  mkRequest (Gender r) (MaritalStatus r) (Dept r) (EmpType r) (CommuteMode r)
    (EduLevel r) (JobLevel r) (Stress r) (WorkEnv r) (Age r) (TeamSize r) (haveOT r)
    (Workload r) (TrainingHoursPerYear r) (WLB r) x (Experience r)
    (NumReports r) (CommuteDistance r) (NumCompanies r) (PhysicalActivityHours r).

(** Two faults at once: a JobLevel that is not allowed with a WorkEnv out of
    range, and a WorkEnv out of range with a negative SleepHours. *)
Definition manager_request : Request := with_JobLevel "Manager" sample_request.
Definition manager_workenv6_request : Request := with_WorkEnv 6 manager_request.
Definition workenv6_short_sleep_request : Request :=
  with_SleepHours (SFopp (f64 1)) (with_WorkEnv 6 sample_request).
Definition nan_sleep_request : Request := with_SleepHours S754_nan sample_request.

(** A preprocessor that passes the frame on, and one that rejects it. *)
Definition sample_transform (df : DataFrame) : result DataFrame := inr df.
Definition failing_transform (df : DataFrame) : result DataFrame :=
  inl (Exception "ValueError" "Found unknown categories in column 6 during transform").

(** Models: one row out, a failure, and no row at all. *)
Definition sample_predict (x : DataFrame) : result (list Z) := inr [4].
Definition failing_predict (x : DataFrame) : result (list Z) :=
  inl (Exception "ValueError" "X has 20 features, but the model is expecting 21").
Definition empty_predict (x : DataFrame) : result (list Z) := inr [].

Definition sample_strtod (s : string) : spec_float := zero.
Definition sample_float_repr (f : spec_float) : string := "0.0".
Definition sample_bigint (z : Z) : result value :=
  inl (Exception "OverflowError" "int too large to convert to float").

(** A host configured through its environment, with the artifacts at the
    configured places and nothing at the paths of the source. *)
Definition configured_world : World string :=
  mkWorld
    (fun k => if String.eqb k "MODEL_PATH" then Some "/srv/artifacts/model.pkl"
              else if String.eqb k "PREPROCESSOR_PATH" then Some "/srv/artifacts/preprocessor.pkl"
              else None)
    (fun p => if String.eqb p "/srv/artifacts/model.pkl" then inr "model"
              else if String.eqb p "/srv/artifacts/preprocessor.pkl" then inr "preprocessor"
              else inl (Exception "FileNotFoundError" p)).

(** The request with its three hour fields replaced. *)
Definition with_hours (t s p : spec_float) (r : Request) : Request :=
  mkRequest (Gender r) (MaritalStatus r) (Dept r) (EmpType r) (CommuteMode r)
    (EduLevel r) (JobLevel r) (Stress r) (WorkEnv r) (Age r) (TeamSize r) (haveOT r)
    (Workload r) t (WLB r) s (Experience r)
    (NumReports r) (CommuteDistance r) (NumCompanies r) p.

(** What [fillna(0)] makes of a cell. *)
Definition fill_cell (v : value) : value :=
  if isnull v then VFloat zero else v.

(** The frame after a numeric coercion that gave the cells [a], [t], [e],
    [n], [c], [m] for the six integer columns. *)
Definition coerced_with (r : Request) (a t e n c m : value) : DataFrame :=
  [ ("Gender", VStr (Gender r));
    ("MaritalStatus", VStr (MaritalStatus r));
    ("Dept", VStr (Dept r));
    ("EmpType", VStr (EmpType r));
    ("CommuteMode", VStr (CommuteMode r));
    ("EduLevel", VStr (EduLevel r));
    ("JobLevel", VFloat S754_nan);
    ("Stress", VInt (Stress r));
    ("WorkEnv", VInt (WorkEnv r));
    ("Age", a);
    ("TeamSize", t);
    ("haveOT", VStr (haveOT r));
    ("Workload", VInt (Workload r));
    ("TrainingHoursPerYear", VFloat (TrainingHoursPerYear r));
    ("WLB", VInt (WLB r));
    ("SleepHours", VFloat (SleepHours r));
    ("Experience", e);
    ("NumReports", n);
    ("CommuteDistance", c);
    ("NumCompanies", m);
    ("PhysicalActivityHours", VFloat (PhysicalActivityHours r)) ].

(** The frame the normalizer then returns. *)
Definition normalized_with (r : Request) (a t e n c m : value) : DataFrame :=
  [ ("Gender", VStr (Gender r));
    ("MaritalStatus", VStr (MaritalStatus r));
    ("Dept", VStr (Dept r));
    ("EmpType", VStr (EmpType r));
    ("CommuteMode", VStr (CommuteMode r));
    ("EduLevel", VStr (EduLevel r));
    ("JobLevel", VFloat zero);
    ("Stress", VInt (Stress r));
    ("WorkEnv", VStr (str_of_int (WorkEnv r)));
    ("Age", fill_cell a);
    ("TeamSize", fill_cell t);
    ("haveOT", VStr (haveOT r));
    ("Workload", VInt (Workload r));
    ("TrainingHoursPerYear", VFloat (nan_to_zero (TrainingHoursPerYear r)));
    ("WLB", VStr (str_of_int (WLB r)));
    ("SleepHours", VFloat (nan_to_zero (SleepHours r)));
    ("Experience", fill_cell e);
    ("NumReports", fill_cell n);
    ("CommuteDistance", fill_cell c);
    ("NumCompanies", fill_cell m);
    ("PhysicalActivityHours", VFloat (nan_to_zero (PhysicalActivityHours r))) ].

Definition with_Age (z : Z) (r : Request) : Request :=
  mkRequest (Gender r) (MaritalStatus r) (Dept r) (EmpType r) (CommuteMode r)
    (EduLevel r) (JobLevel r) (Stress r) (WorkEnv r) z (TeamSize r) (haveOT r)
    (Workload r) (TrainingHoursPerYear r) (WLB r) (SleepHours r) (Experience r)
    (NumReports r) (CommuteDistance r) (NumCompanies r) (PhysicalActivityHours r).

(** The sample request with an Age beyond the range of a float. *)
Definition huge_age_request : Request := with_Age (10 ^ 400) sample_request.

(** A cell that [to_numeric] keeps: a float, or an integer of an int64 column. *)
Definition numeric_cell (v : value) : Prop :=
  match v with
  | VFloat _ => True
  | VInt z => fits_int64 z = true
  | VStr _ => False
  end.

(** Hosts with both artifacts at the paths of the source, and with the
    model only. *)
Definition working_world : World string :=
  mkWorld (fun _ => None)
    (fun p => if String.eqb p model_path then inr "model"
              else if String.eqb p preprocessor_path then inr "preprocessor"
              else inl (Exception "FileNotFoundError" p)).

Definition model_only_world : World string :=
  mkWorld (fun _ => None)
    (fun p => if String.eqb p model_path then inr "model"
              else inl (Exception "FileNotFoundError" p)).

(** ** The service *)

Section Service.

(** The two artifacts loaded at startup, as their call contracts: the output
    of [preprocessor.transform] and the elements of
    [model.predict(...).tolist()] are opaque; either call may raise. *)
Variable Features : Type.
Variable Label : Type.
Variable preprocessor_transform : DataFrame -> result Features.
Variable model_predict : Features -> result (list Label).

(** Library routines taken as parameters: the float a decimal literal
    denotes, [str] of a float, and what [to_numeric] makes of a Python int
    outside the range of an int64 column. *)
Variable strtod : string -> spec_float.
Variable float_repr : spec_float -> string.
Variable to_numeric_bigint : Z -> result value.

(** What each [logging] call of the handler records. *)
Inductive log_record : Type :=
| DtypesBefore (ts : list (string * dtype))
| DtypesAfter (ts : list (string * dtype))
| NaNFound
| PreprocessorInput (df : DataFrame)
| TransformFailed (e : exn)
| TransformedData (x : Features)
| PredictFailed (e : exn)
| GeneralError (e : exn).

Inductive event : Type :=
| Log (l : level) (rec : log_record)
| CallTransform (df : DataFrame)
| CallPredict (x : Features).

(** Computations that extend the trace of events and return or raise. *)
Definition M (A : Type) : Type := list event -> result A * list event.

Definition ret {A : Type} (a : A) : M A := fun tr => (inr a, tr).

Definition bind {A B : Type} (c : M A) (k : A -> M B) : M B :=
  fun tr =>
    match c tr with
    | (inr a, tr') => k a tr'
    | (inl e, tr') => (inl e, tr')
    end.

Definition raise {A : Type} (e : exn) : M A := fun tr => (inl e, tr).

Definition lift {A : Type} (r : result A) : M A := fun tr => (r, tr).

Definition emit (ev : event) : M unit := fun tr => (inr tt, (tr ++ [ev])%list).

(** [try: c  except Exception as e: h e] *)
Definition try_except {A : Type} (c : M A) (h : exn -> M A) : M A :=
  fun tr =>
    match c tr with
    | (inl e, tr') => h e tr'
    | r => r
    end.

Notation "x <- c ;; k" := (bind c (fun x => k))
  (at level 61, c at next level, right associativity).
Notation "c ;; k" := (bind c (fun _ => k))
  (at level 61, right associativity).

Definition logging (l : level) (rec : log_record) : M unit := emit (Log l rec).

(** [if cond: raise HTTPException(status_code, detail)] *)
Definition reject_if (cond : bool) (status_code : Z) (detail : string) : M unit :=
  if cond then raise (HTTPException status_code detail) else ret tt.

Fixpoint for_each {A S : Type} (xs : list A) (body : A -> S -> M S) (s : S) : M S :=
  match xs with
  | [] => ret s
  | x :: xs' => s' <- body x s ;; for_each xs' body s'
  end.

(** [df[col]] *)
Definition getitem (col : string) (df : DataFrame) : M value :=
  match get_col col df with
  | Some v => ret v
  | None => raise (Exception "KeyError" col)
  end.

(** [df[col] = f(df[col])] *)
Definition update_column (f : value -> M value) (col : string) (df : DataFrame)
  : M DataFrame :=
  v <- getitem col df ;; v' <- f v ;; ret (set_col col v' df).

Definition numeric_of_int (z : Z) : M value :=
  if fits_int64 z then ret (VInt z) else lift (to_numeric_bigint z).

(** [pd.to_numeric(column, errors='coerce')] on a one-cell column: a numeric
    cell is kept, a string is read as a number, and what cannot be read
    becomes NaN. *)
Definition to_numeric (v : value) : M value :=
  match v with
  | VStr s =>
      match scan_number s with
      | Some (LitInt z) => numeric_of_int z
      | Some LitDecimal => ret (VFloat (strtod s))
      | Some LitNaN => ret (VFloat S754_nan)
      | Some (LitInf neg) => ret (VFloat (S754_infinity neg))
      | None => ret (VFloat S754_nan)
      end
  | VInt z => numeric_of_int z
  | VFloat f => ret (VFloat f)
  end.

(** [column.astype(str)] *)
Definition astype_str (v : value) : value :=
  match v with
  | VStr s => VStr s
  | VInt z => VStr (str_of_int z)
  | VFloat f => VStr (float_repr f)
  end.

(** [prediction[0]] *)
Definition first {A : Type} (xs : list A) : M A :=
  match xs with
  | x :: _ => ret x
  | [] => raise (Exception "IndexError" "list index out of range")
  end.

Definition call_transform (df : DataFrame) : M Features :=
  emit (CallTransform df) ;; lift (preprocessor_transform df).

Definition call_predict (x : Features) : M (list Label) :=
  emit (CallPredict x) ;; lift (model_predict x).

(** JSON content of a response. *)
Inductive json : Type :=
| JStr (s : string)
| JLabel (y : Label).

(** Lines 59-83: the checks, in the order they are made. *)
Definition validate (r : Request) : M unit :=
  reject_if (negb (str_in (JobLevel r) valid_job_levels)) 400 detail_JobLevel ;;
  reject_if (negb ((1 <=? WorkEnv r) && (WorkEnv r <=? 5))) 400 detail_WorkEnv ;;
  reject_if (negb ((1 <=? Workload r) && (Workload r <=? 5))) 400 detail_Workload ;;
  reject_if (negb ((1 <=? WLB r) && (WLB r <=? 5))) 400 detail_WLB ;;
  reject_if (float_lt0 (TrainingHoursPerYear r)) 400 detail_TrainingHoursPerYear ;;
  reject_if (float_lt0 (SleepHours r)) 400 detail_SleepHours ;;
  reject_if (float_lt0 (PhysicalActivityHours r)) 400 detail_PhysicalActivityHours.

(** Lines 113-132: numeric coercion, NaN filling, categorical columns to str. *)
Definition normalize (input_data : DataFrame) : M DataFrame :=
  input_data <- for_each numeric_columns (update_column to_numeric) input_data ;;
  logging INFO (DtypesAfter (dtypes input_data)) ;;
  input_data <- (if any_null input_data
                 then logging WARNING NaNFound ;; ret (fillna0 input_data)
                 else ret input_data) ;;
  for_each categorical_columns (update_column (fun v => ret (astype_str v))) input_data.

(** Lines 59-154: the statements under the outer [try]. *)
Definition handler_body (r : Request) : M (list (string * json)) :=
  validate r ;;
  let input_data := input_frame r in
  logging INFO (DtypesBefore (dtypes input_data)) ;;
  input_data <- normalize input_data ;;
  logging INFO (PreprocessorInput input_data) ;;
  processed_data <-
    try_except (call_transform input_data)
      (fun e => logging ERROR (TransformFailed e) ;;
                raise (HTTPException 500 detail_transform)) ;;
  logging INFO (TransformedData processed_data) ;;
  prediction <-
    try_except (call_predict processed_data)
      (fun e => logging ERROR (PredictFailed e) ;;
                raise (HTTPException 500 detail_predict)) ;;
  y <- first prediction ;;
  ret [("predicted_job_satisfaction", JLabel y)].

(** Lines 155-159: an [HTTPException] is raised again as it is, any other
    exception is logged and replaced. *)
Definition outer_except (e : exn) : M (list (string * json)) :=
  match e with
  | HTTPException _ _ => raise e
  | Exception _ _ =>
      logging ERROR (GeneralError e) ;;
      raise (HTTPException 500 detail_internal)
  end.

(** Lines 58-159: the handler. *)
Definition predict_job_satisfaction (r : Request) : M (list (string * json)) :=
  try_except (handler_body r) outer_except.

(** What the framework sends for the handler's outcome: the returned dict
    with status 200, an [HTTPException] as its status and detail. *)
Inductive content : Type :=
| JSON (fields : list (string * json))
| Text (s : string).

Record Response : Type := mkResponse {
  status : Z;
  body : content
}.

Definition respond (out : result (list (string * json))) : Response :=
  match out with
  | inr fields => mkResponse 200 (JSON fields)
  | inl (HTTPException code detail) => mkResponse code (JSON [("detail", JStr detail)])
  | inl (Exception _ _) => mkResponse 500 (Text "Internal Server Error")
  end.

(** POST /predict_job_satisfaction, from a fresh trace. *)
Definition endpoint (r : Request) : Response :=
  respond (fst (predict_job_satisfaction r [])).

Definition trace (r : Request) : list event :=
  snd (predict_job_satisfaction r []).

Definition is_artifact_call (ev : event) : bool :=
  match ev with
  | CallTransform _ | CallPredict _ => true
  | Log _ _ => false
  end.

(** The frames handed to [preprocessor.transform] in a trace. *)
Fixpoint delivered (tr : list event) : list DataFrame :=
  match tr with
  | [] => []
  | CallTransform df :: tr' => df :: delivered tr'
  | _ :: tr' => delivered tr'
  end.

(** The [detail] of an error response. *)
Definition detail_of (resp : Response) : option string :=
  match body resp with
  | JSON [("detail", JStr d)] => Some d
  | _ => None
  end.

Definition names_field (resp : Response) (field : string) : bool :=
  match detail_of resp with
  | Some d => contains field d
  | None => false
  end.

(** The trace of an accepted request up to the call of the preprocessor. *)
Definition prelude (r : Request) : list event :=
  [ Log INFO (DtypesBefore (dtypes (input_frame r)));
    Log INFO (DtypesAfter (dtypes (coerced r)));
    Log WARNING NaNFound;
    Log INFO (PreprocessorInput (normalized r));
    CallTransform (normalized r) ].

(** What [to_numeric] makes of an integer cell. *)
Definition coerce_int (z : Z) : result value :=
  if fits_int64 z then inr (VInt z) else to_numeric_bigint z.

(** The outcome of lines 113-132 in the handler: the normalized frame, or
    the exception the coercion raised. *)
Definition normalized_input (r : Request) : result DataFrame :=
  fst (normalize (input_frame r) [Log INFO (DtypesBefore (dtypes (input_frame r)))]).

(** The calls to the artifacts in a trace, in order. *)
Definition artifact_calls (tr : list event) : list event :=
  filter is_artifact_call tr.

Definition is_error_log (ev : event) : bool :=
  match ev with
  | Log ERROR _ => true
  | _ => false
  end.

(** ** The checks of the validator *)

Lemma str_in_In (x : string) (xs : list string) :
  str_in x xs = true <-> In x xs.
Proof.
  unfold str_in. rewrite existsb_exists. split.
  - intros [y [Hin Heq]]. apply String.eqb_eq in Heq. now subst.
  - intros Hin. exists x. split; [assumption | apply String.eqb_refl].
Qed.

Lemma in_range_test (z : Z) :
  in_range z <-> (1 <=? z) && (z <=? 5) = true.
Proof. unfold in_range. rewrite andb_true_iff, !Z.leb_le. tauto. Qed.

Lemma out_of_range_test (z : Z) :
  z < 1 \/ 5 < z <-> (1 <=? z) && (z <=? 5) = false.
Proof. rewrite andb_false_iff, !Z.leb_gt. tauto. Qed.

Lemma not_negative_test (x : spec_float) :
  ~ negative x <-> float_lt0 x = false.
Proof. unfold negative, float_lt0. destruct (SFltb x zero); split; congruence. Qed.



Lemma validate_first_violation (r : Request) (tr : list event) :
  validate r tr =
  match first_violation r with
  | Some d => (inl (HTTPException 400 d), tr)
  | None => (inr tt, tr)
  end.
Proof.
  unfold validate, first_violation, reject_if, bind, raise, ret.
  destruct (negb (str_in (JobLevel r) valid_job_levels)); [reflexivity |].
  destruct (negb ((1 <=? WorkEnv r) && (WorkEnv r <=? 5))); [reflexivity |].
  destruct (negb ((1 <=? Workload r) && (Workload r <=? 5))); [reflexivity |].
  destruct (negb ((1 <=? WLB r) && (WLB r <=? 5))); [reflexivity |].
  destruct (float_lt0 (TrainingHoursPerYear r)); [reflexivity |].
  destruct (float_lt0 (SleepHours r)); [reflexivity |].
  destruct (float_lt0 (PhysicalActivityHours r)); reflexivity.
Qed.

Lemma accepted_first_violation (r : Request) :
  accepted r <-> first_violation r = None.
Proof.
  unfold accepted, first_violation.
  rewrite <- str_in_In, !in_range_test, !not_negative_test.
  destruct (str_in (JobLevel r) valid_job_levels);
    destruct ((1 <=? WorkEnv r) && (WorkEnv r <=? 5));
    destruct ((1 <=? Workload r) && (Workload r <=? 5));
    destruct ((1 <=? WLB r) && (WLB r <=? 5));
    destruct (float_lt0 (TrainingHoursPerYear r));
    destruct (float_lt0 (SleepHours r));
    destruct (float_lt0 (PhysicalActivityHours r));
    cbn; split; intros H; try discriminate; try reflexivity;
    repeat split; try reflexivity; decompose [and] H; discriminate.
Qed.

Lemma job_level_is_no_number (j : string) :
  In j valid_job_levels -> scan_number j = None.
Proof.
  cbn. intros [H | [H | [H | [H | [H | []]]]]]; subst j; reflexivity.
Qed.


(** ** Normalization of an accepted request *)

Lemma coerce_accepted (r : Request) (tr : list event) :
  In (JobLevel r) valid_job_levels -> numeric_ints_fit r ->
  for_each numeric_columns (update_column to_numeric) (input_frame r) tr
  = (inr (coerced r), tr).
Proof.
  intros Hj (Ha & Ht & He & Hn & Hc & Hm).
  destruct r; cbn [JobLevel Age TeamSize Experience NumReports CommuteDistance NumCompanies] in *.
  apply job_level_is_no_number in Hj.
  unfold numeric_columns, input_frame, coerced.
  cbv -[fits_int64 scan_number].
  rewrite Hj, Ha, Ht, He, Hn, Hc, Hm. reflexivity.
Qed.

Lemma normalize_accepted (r : Request) (tr : list event) :
  In (JobLevel r) valid_job_levels -> numeric_ints_fit r ->
  normalize (input_frame r) tr
  = (inr (normalized r),
     (tr ++ [Log INFO (DtypesAfter (dtypes (coerced r))); Log WARNING NaNFound])%list).
Proof.
  intros Hj Hfit. unfold normalize, bind at 1.
  rewrite (coerce_accepted r tr Hj Hfit).
  destruct r. unfold coerced, normalized, nan_to_zero.
  cbv -[str_of_int is_nan fits_int64 fits_uint64 app].
  change (is_nan S754_nan) with true.
  cbv -[str_of_int is_nan fits_int64 fits_uint64 app].
  rewrite <- app_assoc.
  destruct (is_nan TrainingHoursPerYear0), (is_nan SleepHours0),
    (is_nan PhysicalActivityHours0); reflexivity.
Qed.

(** ** The run of an accepted request *)

Lemma run_accepted (r : Request) :
  accepted r -> numeric_ints_fit r ->
  predict_job_satisfaction r [] =
  match preprocessor_transform (normalized r) with
  | inl e =>
      (inl (HTTPException 500 detail_transform),
       (prelude r ++ [Log ERROR (TransformFailed e)])%list)
  | inr x =>
      match model_predict x with
      | inl e =>
          (inl (HTTPException 500 detail_predict),
           (prelude r ++ [Log INFO (TransformedData x); CallPredict x;
                          Log ERROR (PredictFailed e)])%list)
      | inr [] =>
          (inl (HTTPException 500 detail_internal),
           (prelude r ++ [Log INFO (TransformedData x); CallPredict x;
                          Log ERROR (GeneralError
                            (Exception "IndexError" "list index out of range"))])%list)
      | inr (y :: _) =>
          (inr [("predicted_job_satisfaction", JLabel y)],
           (prelude r ++ [Log INFO (TransformedData x); CallPredict x])%list)
      end
  end.
Proof.
  intros Hacc Hfit.
  pose proof (proj1 (accepted_first_violation r) Hacc) as Hv.
  destruct Hacc as (Hj & _).
  unfold predict_job_satisfaction, handler_body, try_except, bind.
  rewrite validate_first_violation, Hv.
  unfold logging, emit at 1.
  rewrite (normalize_accepted r _ Hj Hfit).
  unfold call_transform, call_predict, bind, emit, lift, first, outer_except, raise, ret,
    logging, emit, bind, prelude.
  cbn [app].
  destruct (preprocessor_transform (normalized r)) as [e | x]; [reflexivity |].
  destruct (model_predict x) as [e | [| y ys]]; reflexivity.
Qed.

Lemma run_rejected (r : Request) (d : string) :
  first_violation r = Some d ->
  predict_job_satisfaction r [] = (inl (HTTPException 400 d), []).
Proof.
  intros Hv.
  unfold predict_job_satisfaction, handler_body, try_except, bind.
  now rewrite validate_first_violation, Hv.
Qed.

Lemma rejected_response (r : Request) (d : string) :
  first_violation r = Some d ->
  endpoint r = mkResponse 400 (JSON [("detail", JStr d)]) /\ trace r = [].
Proof.
  intros Hv. unfold endpoint, trace. now rewrite (run_rejected r d Hv).
Qed.

(** ** The normalizer on any frame *)

Lemma get_set_same (col : string) (v : value) (df : DataFrame) :
  get_col col (set_col col v df) = Some v.
Proof.
  induction df as [| [c w] df IH]; cbn.
  - now rewrite String.eqb_refl.
  - destruct (String.eqb c col) eqn:E; cbn; now rewrite E.
Qed.

Lemma get_set_other (c col : string) (v : value) (df : DataFrame) :
  c <> col -> get_col col (set_col c v df) = get_col col df.
Proof.
  intros Hne.
  assert (Hc : String.eqb c col = false) by now apply String.eqb_neq.
  induction df as [| [c' w] df IH]; cbn.
  - now rewrite Hc.
  - destruct (String.eqb c' c) eqn:E; cbn.
    + apply String.eqb_eq in E. subst c'. now rewrite Hc.
    + now rewrite IH.
Qed.

Lemma get_col_fillna0 (col : string) (df : DataFrame) :
  get_col col (fillna0 df) =
  option_map (fun v => if isnull v then VFloat zero else v) (get_col col df).
Proof.
  induction df as [| [c w] df IH]; cbn; [reflexivity |].
  destruct (String.eqb c col); [reflexivity | exact IH].
Qed.

Lemma any_null_at (col : string) (v : value) (df : DataFrame) :
  get_col col df = Some v -> isnull v = true -> any_null df = true.
Proof.
  intros Hget Hnull. unfold any_null.
  induction df as [| [c w] df IH]; cbn in *; [discriminate |].
  destruct (String.eqb c col).
  - injection Hget as ->. now rewrite Hnull.
  - rewrite (IH Hget). apply orb_true_r.
Qed.

Lemma update_column_inv (f : value -> M value) (col : string)
  (df df' : DataFrame) (tr tr' : list event) :
  update_column f col df tr = (inr df', tr') ->
  exists v v', get_col col df = Some v /\ f v tr = (inr v', tr') /\
               df' = set_col col v' df.
Proof.
  unfold update_column, getitem, bind, ret, raise.
  destruct (get_col col df) as [v |]; [| discriminate].
  destruct (f v tr) as [[e | v'] tr1] eqn:Hf; [discriminate |].
  intros H. injection H as <- <-. exists v, v'. repeat split. exact Hf.
Qed.

(** A loop over columns leaves the other columns as they are. *)
Lemma for_each_update_other (f : value -> M value) (cols : list string) :
  forall (df df' : DataFrame) (tr tr' : list event) (c : string),
    ~ In c cols ->
    for_each cols (update_column f) df tr = (inr df', tr') ->
    get_col c df' = get_col c df.
Proof.
  induction cols as [| a cols IH]; intros df df' tr tr' c Hnin Hrun.
  - injection Hrun as <- _. reflexivity.
  - cbn [for_each] in Hrun. unfold bind in Hrun.
    destruct (update_column f a df tr) as [[e | df1] tr1] eqn:Hstep; [discriminate |].
    apply update_column_inv in Hstep as (v & v' & _ & _ & ->).
    rewrite (IH _ _ _ _ c (fun H => Hnin (or_intror H)) Hrun).
    apply get_set_other. intros ->. apply Hnin. now left.
Qed.

(** A loop over distinct columns applies [f] to the cell of each of them. *)
Lemma for_each_update_at (f : value -> M value) (cols : list string) :
  NoDup cols ->
  forall (df df' : DataFrame) (tr tr' : list event) (c : string) (v : value),
    In c cols -> get_col c df = Some v ->
    for_each cols (update_column f) df tr = (inr df', tr') ->
    exists v' t1 t2, f v t1 = (inr v', t2) /\ get_col c df' = Some v'.
Proof.
  induction 1 as [| a cols Hnotin Hnd IH]; intros df df' tr tr' c v Hin Hget Hrun.
  - destruct Hin.
  - cbn [for_each] in Hrun. unfold bind in Hrun.
    destruct (update_column f a df tr) as [[e | df1] tr1] eqn:Hstep; [discriminate |].
    apply update_column_inv in Hstep as (v0 & v0' & Hget0 & Hf & ->).
    destruct Hin as [-> | Hin].
    + rewrite Hget in Hget0. injection Hget0 as <-.
      exists v0', tr, tr1. split; [exact Hf |].
      rewrite (for_each_update_other f cols _ _ _ _ c Hnotin Hrun).
      apply get_set_same.
    + apply (IH (set_col a v0' df) df' tr1 tr' c v Hin); [| exact Hrun].
      rewrite get_set_other; [exact Hget |].
      intros ->. contradiction.
Qed.

Lemma numeric_columns_distinct : NoDup numeric_columns.
Proof.
  unfold numeric_columns.
  repeat (constructor; [cbn; intuition discriminate |]). constructor.
Qed.

Lemma numeric_not_categorical (col : string) :
  In col numeric_columns -> ~ In col categorical_columns.
Proof.
  cbn. intros Hn Hc.
  repeat (destruct Hn as [<- | Hn]; [intuition discriminate |]).
  contradiction.
Qed.



(** ** The loops of the normalizer, on any frame *)

Lemma set_col_names (col : string) (v w : value) (df : DataFrame) :
  get_col col df = Some w -> map fst (set_col col v df) = map fst df.
Proof.
  induction df as [| [c u] df IH]; cbn; [discriminate |].
  destruct (String.eqb c col); cbn; [reflexivity |].
  intros Hget. now rewrite IH.
Qed.

Lemma get_col_names (col : string) (df : DataFrame) :
  (exists v, get_col col df = Some v) <-> In col (map fst df).
Proof.
  induction df as [| [c u] df IH]; cbn.
  - split; [intros [v Hv]; discriminate | contradiction].
  - destruct (String.eqb c col) eqn:E.
    + apply String.eqb_eq in E. split; [auto | eauto].
    + apply String.eqb_neq in E. rewrite IH. split; [auto | intros [H | H]; [contradiction | exact H]].
Qed.

Lemma fillna0_names (df : DataFrame) : map fst (fillna0 df) = map fst df.
Proof. unfold fillna0. rewrite map_map. reflexivity. Qed.

Lemma any_null_fillna0 (df : DataFrame) : any_null (fillna0 df) = false.
Proof.
  unfold any_null, fillna0. induction df as [| [c u] df IH]; cbn; [reflexivity |].
  rewrite IH. destruct (isnull u) eqn:E; cbn; [reflexivity | now rewrite E].
Qed.

Lemma no_null_get (col : string) (v : value) (df : DataFrame) :
  any_null df = false -> get_col col df = Some v -> isnull v = false.
Proof.
  intros Hnone Hget. destruct (isnull v) eqn:E; [| reflexivity].
  now rewrite (any_null_at col v df Hget E) in Hnone.
Qed.

Lemma no_null_set (col : string) (v : value) (df : DataFrame) :
  any_null df = false -> isnull v = false -> any_null (set_col col v df) = false.
Proof.
  unfold any_null. intros Hnone Hv.
  induction df as [| [c u] df IH]; cbn in *.
  - now rewrite Hv.
  - apply orb_false_elim in Hnone as [Hu Hrest].
    destruct (String.eqb c col); cbn.
    + now rewrite Hv, Hrest.
    + now rewrite Hu, IH.
Qed.

Lemma for_each_update_names (f : value -> M value) (cols : list string) :
  forall (df df' : DataFrame) (tr tr' : list event),
    for_each cols (update_column f) df tr = (inr df', tr') ->
    map fst df' = map fst df.
Proof.
  induction cols as [| a cols IH]; intros df df' tr tr' Hrun.
  - injection Hrun as <- _. reflexivity.
  - cbn [for_each] in Hrun. unfold bind in Hrun.
    destruct (update_column f a df tr) as [[e | df1] tr1] eqn:Hstep; [discriminate |].
    apply update_column_inv in Hstep as (v & v' & Hget & _ & ->).
    rewrite (IH _ _ _ _ Hrun). now apply set_col_names with (w := v).
Qed.

Lemma for_each_update_present (f : value -> M value) (cols : list string) :
  forall (df df' : DataFrame) (tr tr' : list event) (c : string),
    for_each cols (update_column f) df tr = (inr df', tr') ->
    In c cols -> In c (map fst df).
Proof.
  induction cols as [| a cols IH]; intros df df' tr tr' c Hrun Hin.
  - destruct Hin.
  - cbn [for_each] in Hrun. unfold bind in Hrun.
    destruct (update_column f a df tr) as [[e | df1] tr1] eqn:Hstep; [discriminate |].
    apply update_column_inv in Hstep as (v & v' & Hget & _ & ->).
    destruct Hin as [<- | Hin].
    + apply get_col_names. eauto.
    + rewrite <- (set_col_names a v' v df Hget). exact (IH _ _ _ _ c Hrun Hin).
Qed.

Lemma for_each_update_no_null (f : value -> M value) (cols : list string) :
  (forall v t v' t', f v t = (inr v', t') -> isnull v' = false) ->
  forall (df df' : DataFrame) (tr tr' : list event),
    any_null df = false ->
    for_each cols (update_column f) df tr = (inr df', tr') ->
    any_null df' = false.
Proof.
  intros Hf. induction cols as [| a cols IH]; intros df df' tr tr' Hnone Hrun.
  - injection Hrun as <- _. exact Hnone.
  - cbn [for_each] in Hrun. unfold bind in Hrun.
    destruct (update_column f a df tr) as [[e | df1] tr1] eqn:Hstep; [discriminate |].
    apply update_column_inv in Hstep as (v & v' & _ & Hv' & ->).
    apply (IH _ _ _ _ (no_null_set a v' df Hnone (Hf _ _ _ _ Hv')) Hrun).
Qed.

Lemma categorical_columns_distinct : NoDup categorical_columns.
Proof.
  unfold categorical_columns.
  repeat (constructor; [cbn; intuition discriminate |]). constructor.
Qed.

(** The steps of [normalize] on a frame for which it returns. *)
Lemma normalize_inv (df df' : DataFrame) (tr tr' : list event) :
  normalize df tr = (inr df', tr') ->
  exists df1 tr1 tr2,
    for_each numeric_columns (update_column to_numeric) df tr = (inr df1, tr1) /\
    for_each categorical_columns (update_column (fun v => ret (astype_str v)))
      (if any_null df1 then fillna0 df1 else df1) tr2 = (inr df', tr').
Proof.
  unfold normalize. unfold bind at 1.
  destruct (for_each numeric_columns (update_column to_numeric) df tr)
    as [[e | df1] tr1]; [discriminate |].
  unfold bind, logging, emit, ret.
  intros Hrun. exists df1, tr1.
  destruct (any_null df1); eauto.
Qed.

Lemma fill_frame_get (col : string) (df : DataFrame) :
  get_col col (if any_null df then fillna0 df else df)
  = option_map fill_cell (get_col col df).
Proof.
  destruct (any_null df) eqn:Hany.
  - apply get_col_fillna0.
  - destruct (get_col col df) as [v |] eqn:Hget; [| reflexivity].
    cbn. unfold fill_cell. now rewrite (no_null_get col v df Hany Hget).
Qed.

Lemma astype_str_not_null (v : value) (tr : list event) (t : value) (tr' : list event) :
  ret (astype_str v) tr = (inr t, tr') -> isnull t = false.
Proof. intros H. injection H as <- _. now destruct v. Qed.

(** ** The run of any request that passes the checks *)

Lemma to_numeric_silent (v : value) (tr : list event) : snd (to_numeric v tr) = tr.
Proof.
  destruct v as [s | z | f]; cbn; [| unfold numeric_of_int; now destruct (fits_int64 z) | reflexivity].
  destruct (scan_number s) as [[z | | | neg] |]; try reflexivity.
  unfold numeric_of_int. now destruct (fits_int64 z).
Qed.

Lemma update_column_silent (f : value -> M value) (col : string)
  (df : DataFrame) (tr : list event) :
  (forall v t, snd (f v t) = t) -> snd (update_column f col df tr) = tr.
Proof.
  intros Hf. unfold update_column, getitem, bind, ret, raise.
  destruct (get_col col df) as [v |]; [| reflexivity].
  specialize (Hf v tr). destruct (f v tr) as [[e | v'] tr1]; exact Hf.
Qed.

Lemma for_each_update_silent (f : value -> M value) (cols : list string) :
  (forall v t, snd (f v t) = t) ->
  forall (df : DataFrame) (tr : list event),
    snd (for_each cols (update_column f) df tr) = tr.
Proof.
  intros Hf. induction cols as [| a cols IH]; intros df tr; [reflexivity |].
  cbn [for_each]. unfold bind.
  pose proof (update_column_silent f a df tr Hf) as Hstep.
  destruct (update_column f a df tr) as [[e | df1] tr1]; cbn in Hstep; subst tr1.
  - reflexivity.
  - apply IH.
Qed.

(** The normalizer writes at most two records to the log, and nothing else
    to the trace. *)
Lemma normalize_trace (df : DataFrame) (tr : list event) :
  exists logs,
    snd (normalize df tr) = (tr ++ logs)%list /\
    (logs = [] \/
     (exists ts, logs = [Log INFO (DtypesAfter ts)]) \/
     (exists ts, logs = [Log INFO (DtypesAfter ts); Log WARNING NaNFound])).
Proof.
  unfold normalize. unfold bind at 1.
  pose proof (for_each_update_silent to_numeric numeric_columns to_numeric_silent df tr)
    as Hnum.
  destruct (for_each numeric_columns (update_column to_numeric) df tr)
    as [[e | df1] tr1]; cbn in Hnum; subst tr1.
  - exists []. split; [now rewrite app_nil_r | now left].
  - unfold bind, logging, emit, ret.
    destruct (any_null df1).
    + exists [Log INFO (DtypesAfter (dtypes df1)); Log WARNING NaNFound].
      split; [| right; right; eauto].
      rewrite for_each_update_silent by (intros; reflexivity).
      now rewrite <- app_assoc.
    + exists [Log INFO (DtypesAfter (dtypes df1))].
      split; [| right; left; eauto].
      now rewrite for_each_update_silent by (intros; reflexivity).
Qed.

(** The run of a request that passes the checks, whatever the normalizer
    and the artifacts do. *)
Lemma run_checked (r : Request) :
  first_violation r = None ->
  predict_job_satisfaction r [] =
  match normalize (input_frame r) [Log INFO (DtypesBefore (dtypes (input_frame r)))] with
  | (inl e, trN) => outer_except e trN
  | (inr df, trN) =>
      match preprocessor_transform df with
      | inl e =>
          (inl (HTTPException 500 detail_transform),
           (trN ++ [Log INFO (PreprocessorInput df); CallTransform df;
                    Log ERROR (TransformFailed e)])%list)
      | inr x =>
          match model_predict x with
          | inl e =>
              (inl (HTTPException 500 detail_predict),
               (trN ++ [Log INFO (PreprocessorInput df); CallTransform df;
                        Log INFO (TransformedData x); CallPredict x;
                        Log ERROR (PredictFailed e)])%list)
          | inr [] =>
              (inl (HTTPException 500 detail_internal),
               (trN ++ [Log INFO (PreprocessorInput df); CallTransform df;
                        Log INFO (TransformedData x); CallPredict x;
                        Log ERROR (GeneralError
                          (Exception "IndexError" "list index out of range"))])%list)
          | inr (y :: _) =>
              (inr [("predicted_job_satisfaction", JLabel y)],
               (trN ++ [Log INFO (PreprocessorInput df); CallTransform df;
                        Log INFO (TransformedData x); CallPredict x])%list)
          end
      end
  end.
Proof.
  intros Hv.
  unfold predict_job_satisfaction, handler_body, try_except, bind.
  rewrite validate_first_violation, Hv.
  unfold logging, emit at 1. cbn [app].
  destruct (normalize (input_frame r) _) as [[e | df] trN]; [reflexivity |].
  unfold call_transform, call_predict, bind, emit, lift, first, outer_except, raise, ret,
    logging, emit, bind.
  destruct (preprocessor_transform df) as [e | x];
    [now rewrite <- !app_assoc |].
  destruct (model_predict x) as [e | [| y ys]]; now rewrite <- !app_assoc.
Qed.

(** ** The normalizer on the frame of a request, whatever its integers *)

Lemma numeric_of_int_coerce (z : Z) (tr : list event) :
  numeric_of_int z tr = (coerce_int z, tr).
Proof. unfold numeric_of_int, coerce_int. now destruct (fits_int64 z). Qed.

Lemma update_int (col : string) (z : Z) (df : DataFrame) (tr : list event) :
  get_col col df = Some (VInt z) ->
  update_column to_numeric col df tr =
  match coerce_int z with
  | inl e => (inl e, tr)
  | inr v => (inr (set_col col v df), tr)
  end.
Proof.
  intros Hget. unfold update_column, getitem, bind. rewrite Hget.
  cbv beta iota delta [ret to_numeric]. rewrite numeric_of_int_coerce.
  now destruct (coerce_int z).
Qed.

Lemma update_float (col : string) (f : spec_float) (df : DataFrame) (tr : list event) :
  get_col col df = Some (VFloat f) ->
  update_column to_numeric col df tr = (inr (set_col col (VFloat f) df), tr).
Proof.
  intros Hget. unfold update_column, getitem, bind. rewrite Hget. reflexivity.
Qed.

Lemma update_job_level (r : Request) (tr : list event) :
  In (JobLevel r) valid_job_levels ->
  update_column to_numeric "JobLevel" (input_frame r) tr
  = (inr (set_col "JobLevel" (VFloat S754_nan) (input_frame r)), tr).
Proof.
  intros Hj. apply job_level_is_no_number in Hj.
  unfold update_column, getitem, bind.
  change (get_col "JobLevel" (input_frame r)) with (Some (VStr (JobLevel r))).
  cbv beta iota delta [ret to_numeric]. now rewrite Hj.
Qed.

(** The numeric loop on the frame of a request: the integer columns are
    coerced in the order of the list, and the first failure ends it. *)
Lemma coerce_checked (r : Request) (tr : list event) :
  In (JobLevel r) valid_job_levels ->
  for_each numeric_columns (update_column to_numeric) (input_frame r) tr =
  match coerce_int (Age r) with inl e => (inl e, tr) | inr a =>
  match coerce_int (TeamSize r) with inl e => (inl e, tr) | inr t =>
  match coerce_int (Experience r) with inl e => (inl e, tr) | inr e =>
  match coerce_int (NumReports r) with inl e => (inl e, tr) | inr n =>
  match coerce_int (CommuteDistance r) with inl e => (inl e, tr) | inr c =>
  match coerce_int (NumCompanies r) with inl e => (inl e, tr) | inr m =>
    (inr (coerced_with r a t e n c m), tr)
  end end end end end end.
Proof.
  intros Hj. unfold numeric_columns. cbn [for_each]. unfold bind.
  rewrite (update_job_level r tr Hj).
  destruct r. cbn [set_col input_frame String.eqb Ascii.eqb Bool.eqb Age TeamSize
    Experience NumReports CommuteDistance NumCompanies Gender MaritalStatus Dept EmpType
    CommuteMode EduLevel JobLevel Stress WorkEnv haveOT Workload TrainingHoursPerYear
    WLB SleepHours PhysicalActivityHours].
  rewrite (update_int "Age" Age0) by reflexivity.
  destruct (coerce_int Age0) as [e | a]; [reflexivity |].
  cbn [set_col String.eqb Ascii.eqb Bool.eqb].
  rewrite (update_int "TeamSize" TeamSize0) by reflexivity.
  destruct (coerce_int TeamSize0) as [e | t]; [reflexivity |].
  cbn [set_col String.eqb Ascii.eqb Bool.eqb].
  rewrite (update_float "TrainingHoursPerYear" TrainingHoursPerYear0) by reflexivity.
  cbn [set_col String.eqb Ascii.eqb Bool.eqb].
  rewrite (update_float "SleepHours" SleepHours0) by reflexivity.
  cbn [set_col String.eqb Ascii.eqb Bool.eqb].
  rewrite (update_int "Experience" Experience0) by reflexivity.
  destruct (coerce_int Experience0) as [e | x]; [reflexivity |].
  cbn [set_col String.eqb Ascii.eqb Bool.eqb].
  rewrite (update_int "NumReports" NumReports0) by reflexivity.
  destruct (coerce_int NumReports0) as [e | n]; [reflexivity |].
  cbn [set_col String.eqb Ascii.eqb Bool.eqb].
  rewrite (update_int "CommuteDistance" CommuteDistance0) by reflexivity.
  destruct (coerce_int CommuteDistance0) as [e | c]; [reflexivity |].
  cbn [set_col String.eqb Ascii.eqb Bool.eqb].
  rewrite (update_int "NumCompanies" NumCompanies0) by reflexivity.
  destruct (coerce_int NumCompanies0) as [e | m]; [reflexivity |].
  cbn [set_col String.eqb Ascii.eqb Bool.eqb].
  rewrite (update_float "PhysicalActivityHours" PhysicalActivityHours0) by reflexivity.
  reflexivity.
Qed.

Lemma fill_cell_float (f : spec_float) : fill_cell (VFloat f) = VFloat (nan_to_zero f).
Proof. unfold fill_cell, nan_to_zero. cbn. now destruct (is_nan f). Qed.

(** The normalizer on the frame of a request. *)
Lemma normalize_checked (r : Request) (tr : list event) :
  In (JobLevel r) valid_job_levels ->
  normalize (input_frame r) tr =
  match coerce_int (Age r) with inl e => (inl e, tr) | inr a =>
  match coerce_int (TeamSize r) with inl e => (inl e, tr) | inr t =>
  match coerce_int (Experience r) with inl e => (inl e, tr) | inr e =>
  match coerce_int (NumReports r) with inl e => (inl e, tr) | inr n =>
  match coerce_int (CommuteDistance r) with inl e => (inl e, tr) | inr c =>
  match coerce_int (NumCompanies r) with inl e => (inl e, tr) | inr m =>
    (inr (normalized_with r a t e n c m),
     (tr ++ [Log INFO (DtypesAfter (dtypes (coerced_with r a t e n c m)));
             Log WARNING NaNFound])%list)
  end end end end end end.
Proof.
  intros Hj. unfold normalize. unfold bind at 1.
  rewrite (coerce_checked r tr Hj).
  destruct (coerce_int (Age r)) as [e | a]; [reflexivity |].
  destruct (coerce_int (TeamSize r)) as [e | t]; [reflexivity |].
  destruct (coerce_int (Experience r)) as [e | x]; [reflexivity |].
  destruct (coerce_int (NumReports r)) as [e | n]; [reflexivity |].
  destruct (coerce_int (CommuteDistance r)) as [e | c]; [reflexivity |].
  destruct (coerce_int (NumCompanies r)) as [e | m]; [reflexivity |].
  unfold normalized_with. rewrite <- !fill_cell_float.
  cbv -[str_of_int dtype_of app].
  now rewrite <- app_assoc.
Qed.



(** The frames handed to the preprocessor: the normalized frame, once, when
    the checks pass and the normalizer returns; none otherwise. *)
Lemma delivered_checked (r : Request) :
  first_violation r = None ->
  delivered (trace r) =
  match normalized_input r with
  | inr df => [df]
  | inl _ => []
  end.
Proof.
  intros Hv. unfold trace, normalized_input. rewrite (run_checked r Hv).
  destruct (normalize_trace (input_frame r)
              [Log INFO (DtypesBefore (dtypes (input_frame r)))])
    as (logs & Htr & Hlogs).
  destruct (normalize (input_frame r) _) as [[e | df] trN]; cbn in Htr; subst trN; cbn [fst].
  - destruct e as [code d | cls msg];
      destruct Hlogs as [-> | [[ts ->] | [ts ->]]]; reflexivity.
  - destruct (preprocessor_transform df) as [e | x];
      [destruct Hlogs as [-> | [[ts ->] | [ts ->]]]; reflexivity |].
    destruct (model_predict x) as [e | [| y ys]];
      destruct Hlogs as [-> | [[ts ->] | [ts ->]]]; reflexivity.
Qed.


(** The answer to a request that passes the checks, from the outcome of the
    normalizer and of the two artifacts. *)
Lemma endpoint_checked (r : Request) :
  first_violation r = None ->
  endpoint r =
  match normalized_input r with
  | inl (HTTPException code d) => mkResponse code (JSON [("detail", JStr d)])
  | inl (Exception _ _) => mkResponse 500 (JSON [("detail", JStr detail_internal)])
  | inr df =>
      match preprocessor_transform df with
      | inl _ => mkResponse 500 (JSON [("detail", JStr detail_transform)])
      | inr x =>
          match model_predict x with
          | inl _ => mkResponse 500 (JSON [("detail", JStr detail_predict)])
          | inr [] => mkResponse 500 (JSON [("detail", JStr detail_internal)])
          | inr (y :: _) =>
              mkResponse 200 (JSON [("predicted_job_satisfaction", JLabel y)])
          end
      end
  end.
Proof.
  intros Hv. unfold endpoint, normalized_input. rewrite (run_checked r Hv).
  destruct (normalize (input_frame r) _) as [[e | df] trN]; cbn [fst].
  - destruct e; reflexivity.
  - destruct (preprocessor_transform df) as [e | x]; [reflexivity |].
    destruct (model_predict x) as [e | [| y ys]]; reflexivity.
Qed.

(** The normalized frame does not depend on which allowed JobLevel was sent,
    nor on whether an hour field was NaN or 0.0. *)
Lemma normalized_input_job_level (r : Request) (j : string) :
  In (JobLevel r) valid_job_levels -> In j valid_job_levels ->
  normalized_input (with_JobLevel j r) = normalized_input r.
Proof.
  intros Hr Hj. unfold normalized_input.
  rewrite (normalize_checked r _ Hr), (normalize_checked (with_JobLevel j r) _ Hj).
  cbn [with_JobLevel Age TeamSize Experience NumReports CommuteDistance NumCompanies].
  destruct (coerce_int (Age r)) as [e | a]; [reflexivity |].
  destruct (coerce_int (TeamSize r)) as [e | t]; [reflexivity |].
  destruct (coerce_int (Experience r)) as [e | x]; [reflexivity |].
  destruct (coerce_int (NumReports r)) as [e | n]; [reflexivity |].
  destruct (coerce_int (CommuteDistance r)) as [e | c]; [reflexivity |].
  destruct (coerce_int (NumCompanies r)) as [e | m]; reflexivity.
Qed.

Lemma nan_to_zero_idempotent (x : spec_float) :
  nan_to_zero (nan_to_zero x) = nan_to_zero x.
Proof. now destruct x. Qed.

Lemma float_lt0_nan_to_zero (x : spec_float) :
  float_lt0 (nan_to_zero x) = float_lt0 x.
Proof. now destruct x. Qed.

Lemma normalized_input_nan_hours (r : Request) (t s p : spec_float) :
  In (JobLevel r) valid_job_levels ->
  normalized_input (with_hours (nan_to_zero t) (nan_to_zero s) (nan_to_zero p) r)
  = normalized_input (with_hours t s p r).
Proof.
  intros Hr. unfold normalized_input.
  rewrite (normalize_checked (with_hours t s p r) _ Hr),
    (normalize_checked (with_hours (nan_to_zero t) (nan_to_zero s) (nan_to_zero p) r) _ Hr).
  cbn [with_hours Age TeamSize Experience NumReports CommuteDistance NumCompanies].
  destruct (coerce_int (Age r)) as [e | a]; [reflexivity |].
  destruct (coerce_int (TeamSize r)) as [e | t']; [reflexivity |].
  destruct (coerce_int (Experience r)) as [e | x]; [reflexivity |].
  destruct (coerce_int (NumReports r)) as [e | n]; [reflexivity |].
  destruct (coerce_int (CommuteDistance r)) as [e | c]; [reflexivity |].
  destruct (coerce_int (NumCompanies r)) as [e | m]; [reflexivity |].
  cbn [fst]. unfold normalized_with.
  cbn [with_hours TrainingHoursPerYear SleepHours PhysicalActivityHours Gender
    MaritalStatus Dept EmpType CommuteMode EduLevel JobLevel Stress WorkEnv haveOT
    Workload WLB].
  now rewrite !nan_to_zero_idempotent.
Qed.


(** ** The properties of the endpoint *)





(** C5: a request whose JobLevel is not one of the five allowed values is
    answered with status 400 and a detail that names JobLevel, and neither
    artifact is called. *)
Theorem invalid_job_level_rejected (r : Request) :
  ~ In (JobLevel r) valid_job_levels ->
  status (endpoint r) = 400 /\
  detail_of (endpoint r) = Some detail_JobLevel /\
  names_field (endpoint r) "JobLevel" = true /\
  existsb is_artifact_call (trace r) = false.
Proof.
  intros Hj.
  assert (Hv : first_violation r = Some detail_JobLevel).
  { unfold first_violation. rewrite <- str_in_In in Hj.
    destruct (str_in (JobLevel r) valid_job_levels); [now elim Hj | reflexivity]. }
  destruct (rejected_response r _ Hv) as [He Ht].
  rewrite He, Ht. repeat split.
Qed.

Lemma first_violation_cases (r : Request) :
  first_violation r =
  if str_in (JobLevel r) valid_job_levels then
    if (1 <=? WorkEnv r) && (WorkEnv r <=? 5) then
      if (1 <=? Workload r) && (Workload r <=? 5) then
        if (1 <=? WLB r) && (WLB r <=? 5) then
          if float_lt0 (TrainingHoursPerYear r) then Some detail_TrainingHoursPerYear
          else if float_lt0 (SleepHours r) then Some detail_SleepHours
          else if float_lt0 (PhysicalActivityHours r)
               then Some detail_PhysicalActivityHours
               else None
        else Some detail_WLB
      else Some detail_Workload
    else Some detail_WorkEnv
  else Some detail_JobLevel.
Proof.
  unfold first_violation.
  destruct (str_in (JobLevel r) valid_job_levels); [| reflexivity].
  destruct ((1 <=? WorkEnv r) && (WorkEnv r <=? 5)); [| reflexivity].
  destruct ((1 <=? Workload r) && (Workload r <=? 5)); [| reflexivity].
  destruct ((1 <=? WLB r) && (WLB r <=? 5)); reflexivity.
Qed.

(** Runs the handler up to the outcome of the checks. *)
Ltac by_first_violation :=
  unfold endpoint, trace, predict_job_satisfaction, handler_body, try_except, bind;
  rewrite validate_first_violation, first_violation_cases.

(** C6 (amended): a request in which WorkEnv, Workload or WLB lies outside
    [1,5] is answered with status 400. The detail is that of the first check
    that fails: it names JobLevel when JobLevel is not allowed, and otherwise
    the first of WorkEnv, Workload, WLB, in that order, that is out of range. *)
Theorem range_fault_rejected (r : Request) :
  out_of_range (WorkEnv r) \/ out_of_range (Workload r) \/ out_of_range (WLB r) ->
  status (endpoint r) = 400 /\
  (~ In (JobLevel r) valid_job_levels -> names_field (endpoint r) "JobLevel" = true) /\
  (In (JobLevel r) valid_job_levels ->
     (out_of_range (WorkEnv r) -> names_field (endpoint r) "WorkEnv" = true) /\
     (in_range (WorkEnv r) -> out_of_range (Workload r) ->
        names_field (endpoint r) "Workload" = true) /\
     (in_range (WorkEnv r) -> in_range (Workload r) -> out_of_range (WLB r) ->
        names_field (endpoint r) "WLB" = true)).
Proof.
  unfold out_of_range. rewrite <- str_in_In, !in_range_test, !out_of_range_test.
  intros Hout. by_first_violation.
  destruct (str_in (JobLevel r) valid_job_levels);
    destruct ((1 <=? WorkEnv r) && (WorkEnv r <=? 5));
    destruct ((1 <=? Workload r) && (Workload r <=? 5));
    destruct ((1 <=? WLB r) && (WLB r <=? 5));
    try (exfalso; intuition discriminate);
    (split; [reflexivity |]); (split; [intros H; try reflexivity; now elim H |]);
    intros Hj; try discriminate Hj;
    repeat split; intros; try reflexivity; congruence.
Qed.

(** C7 (amended): a request in which TrainingHoursPerYear, SleepHours or
    PhysicalActivityHours is negative is answered with status 400. The detail
    is that of the first check that fails: when JobLevel, WorkEnv, Workload
    and WLB pass their checks, it names the first of the three, in that
    order, that is negative. *)
Theorem negative_hours_rejected (r : Request) :
  negative (TrainingHoursPerYear r) \/ negative (SleepHours r) \/
    negative (PhysicalActivityHours r) ->
  status (endpoint r) = 400 /\
  (In (JobLevel r) valid_job_levels ->
   in_range (WorkEnv r) -> in_range (Workload r) -> in_range (WLB r) ->
     (negative (TrainingHoursPerYear r) ->
        names_field (endpoint r) "TrainingHoursPerYear" = true) /\
     (~ negative (TrainingHoursPerYear r) -> negative (SleepHours r) ->
        names_field (endpoint r) "SleepHours" = true) /\
     (~ negative (TrainingHoursPerYear r) -> ~ negative (SleepHours r) ->
      negative (PhysicalActivityHours r) ->
        names_field (endpoint r) "PhysicalActivityHours" = true)).
Proof.
  rewrite <- str_in_In, !in_range_test, !not_negative_test.
  unfold negative. fold (float_lt0 (TrainingHoursPerYear r))
    (float_lt0 (SleepHours r)) (float_lt0 (PhysicalActivityHours r)).
  intros Hneg. by_first_violation.
  destruct (str_in (JobLevel r) valid_job_levels);
    destruct ((1 <=? WorkEnv r) && (WorkEnv r <=? 5));
    destruct ((1 <=? Workload r) && (Workload r <=? 5));
    destruct ((1 <=? WLB r) && (WLB r <=? 5));
    destruct (float_lt0 (TrainingHoursPerYear r));
    destruct (float_lt0 (SleepHours r));
    destruct (float_lt0 (PhysicalActivityHours r));
    try (exfalso; intuition discriminate);
    (split; [reflexivity |]); intros; try congruence;
    repeat split; intros; try reflexivity; congruence.
Qed.


(** C9: for a request that passes validation, a failure of the
    preprocessor on the normalized frame, a failure of the model on the
    features, and any other exception raised under the outer [try] (one
    raised by the numeric coercion among them) each give status 500 with the
    fixed detail of that category; the response is the same whatever the
    exception was, which is only written to the log. *)
Theorem server_faults_are_generic (r : Request) :
  accepted r ->
  (forall df e, normalized_input r = inr df -> preprocessor_transform df = inl e ->
     endpoint r = mkResponse 500 (JSON [("detail", JStr detail_transform)]) /\
     In (Log ERROR (TransformFailed e)) (trace r)) /\
  (forall df x e, normalized_input r = inr df -> preprocessor_transform df = inr x ->
                  model_predict x = inl e ->
     endpoint r = mkResponse 500 (JSON [("detail", JStr detail_predict)]) /\
     In (Log ERROR (PredictFailed e)) (trace r)) /\
  (forall cls msg tr, handler_body r [] = (inl (Exception cls msg), tr) ->
     endpoint r = mkResponse 500 (JSON [("detail", JStr detail_internal)]) /\
     trace r = (tr ++ [Log ERROR (GeneralError (Exception cls msg))])%list) /\
  (forall cls msg, normalized_input r = inl (Exception cls msg) ->
     endpoint r = mkResponse 500 (JSON [("detail", JStr detail_internal)]) /\
     In (Log ERROR (GeneralError (Exception cls msg))) (trace r) /\
     delivered (trace r) = []).
Proof.
  intros Hacc. pose proof (proj1 (accepted_first_violation r) Hacc) as Hv.
  split; [| split; [| split]].
  - intros df e Hn He. split; [now rewrite (endpoint_checked r Hv), Hn, He |].
    unfold trace, normalized_input in *. rewrite (run_checked r Hv).
    destruct (normalize (input_frame r) _) as [res trN]. cbn in Hn. subst res.
    rewrite He. apply in_or_app. right. cbn. auto.
  - intros df x e Hn Hx He. split; [now rewrite (endpoint_checked r Hv), Hn, Hx, He |].
    unfold trace, normalized_input in *. rewrite (run_checked r Hv).
    destruct (normalize (input_frame r) _) as [res trN]. cbn in Hn. subst res.
    rewrite Hx, He. apply in_or_app. right. cbn. auto 10.
  - intros cls msg tr Hbody. unfold endpoint, trace, predict_job_satisfaction, try_except.
    rewrite Hbody. split; reflexivity.
  - intros cls msg Hn.
    split; [now rewrite (endpoint_checked r Hv), Hn |].
    split; [| now rewrite (delivered_checked r Hv), Hn].
    unfold trace, normalized_input in *. rewrite (run_checked r Hv).
    destruct (normalize (input_frame r) _) as [res trN]. cbn in Hn. subst res.
    cbn. apply in_or_app. right. now left.
Qed.

(** ** Further properties of the normalizer, on any frame *)

(** X1: normalization neither adds, drops nor reorders columns. *)
Theorem normalize_keeps_columns (df df' : DataFrame) (tr tr' : list event) :
  normalize df tr = (inr df', tr') -> map fst df' = map fst df.
Proof.
  intros Hrun. apply normalize_inv in Hrun as (df1 & tr1 & tr2 & Hnum & Hcat).
  rewrite (for_each_update_names _ _ _ _ _ _ Hcat).
  rewrite <- (for_each_update_names _ _ _ _ _ _ Hnum).
  destruct (any_null df1); [apply fillna0_names | reflexivity].
Qed.

(** X2: normalization returns only for a frame that has every column of the
    numeric and of the categorical list; without one of them it raises. *)
Theorem normalize_requires_columns
  (df df' : DataFrame) (tr tr' : list event) (col : string) :
  normalize df tr = (inr df', tr') ->
  In col (numeric_columns ++ categorical_columns) ->
  exists v, get_col col df = Some v.
Proof.
  intros Hrun Hin. apply get_col_names.
  apply normalize_inv in Hrun as (df1 & tr1 & tr2 & Hnum & Hcat).
  apply in_app_or in Hin as [Hin | Hin].
  - exact (for_each_update_present _ _ _ _ _ _ col Hnum Hin).
  - rewrite <- (for_each_update_names _ _ _ _ _ _ Hnum).
    pose proof (for_each_update_present _ _ _ _ _ _ col Hcat Hin) as Hp.
    destruct (any_null df1); [now rewrite fillna0_names in Hp | exact Hp].
Qed.

(** X3: the normalized frame has no NaN cell. *)
Theorem normalize_leaves_no_nan (df df' : DataFrame) (tr tr' : list event) :
  normalize df tr = (inr df', tr') -> any_null df' = false.
Proof.
  intros Hrun. apply normalize_inv in Hrun as (df1 & tr1 & tr2 & _ & Hcat).
  apply (for_each_update_no_null _ _ astype_str_not_null _ _ _ _) in Hcat;
    [exact Hcat |].
  destruct (any_null df1) eqn:Hany; [apply any_null_fillna0 | exact Hany].
Qed.

(** X4: a column of neither list passes through normalization as it is,
    but for a NaN, which becomes 0. *)
Theorem normalize_passes_other_columns
  (df df' : DataFrame) (tr tr' : list event) (col : string) :
  ~ In col numeric_columns -> ~ In col categorical_columns ->
  normalize df tr = (inr df', tr') ->
  get_col col df' = option_map fill_cell (get_col col df).
Proof.
  intros Hnn Hnc Hrun.
  apply normalize_inv in Hrun as (df1 & tr1 & tr2 & Hnum & Hcat).
  rewrite (for_each_update_other _ _ _ _ _ _ col Hnc Hcat), fill_frame_get.
  now rewrite (for_each_update_other _ _ _ _ _ _ col Hnn Hnum).
Qed.

(** X5: a categorical column of the normalized frame holds [str] of the
    cell it had (of 0.0 for a NaN). *)
Theorem normalize_categorical_as_str
  (df df' : DataFrame) (tr tr' : list event) (col : string) (v : value) :
  In col categorical_columns -> get_col col df = Some v ->
  normalize df tr = (inr df', tr') ->
  get_col col df' = Some (astype_str (fill_cell v)).
Proof.
  intros Hin Hget Hrun.
  apply normalize_inv in Hrun as (df1 & tr1 & tr2 & Hnum & Hcat).
  assert (Hnn : ~ In col numeric_columns)
    by (intros Hn; exact (numeric_not_categorical col Hn Hin)).
  assert (Hget2 : get_col col (if any_null df1 then fillna0 df1 else df1)
                  = Some (fill_cell v)).
  { rewrite fill_frame_get, (for_each_update_other _ _ _ _ _ _ col Hnn Hnum), Hget.
    reflexivity. }
  destruct (for_each_update_at _ _ categorical_columns_distinct _ _ _ _ col _
              Hin Hget2 Hcat) as (v' & t1 & t2 & Hv' & Hget').
  injection Hv' as <- _. exact Hget'.
Qed.

(** X6: a number in a numeric column (a float, or an integer that fits
    int64) is the same in the normalized frame, but for a NaN, which
    becomes 0. *)
Theorem normalize_keeps_numbers
  (df df' : DataFrame) (tr tr' : list event) (col : string) (v : value) :
  In col numeric_columns -> get_col col df = Some v -> numeric_cell v ->
  normalize df tr = (inr df', tr') ->
  get_col col df' = Some (fill_cell v).
Proof.
  intros Hin Hget Hnum Hrun.
  apply normalize_inv in Hrun as (df1 & tr1 & tr2 & Hloop & Hcat).
  destruct (for_each_update_at _ _ numeric_columns_distinct _ _ _ _ col v
              Hin Hget Hloop) as (v' & t1 & t2 & Hv' & Hget1).
  assert (v' = v) as ->.
  { destruct v as [s | z | f]; cbn in Hnum, Hv'.
    - contradiction.
    - unfold numeric_of_int in Hv'. rewrite Hnum in Hv'. now injection Hv' as <- _.
    - now injection Hv' as <- _. }
  rewrite (for_each_update_other _ _ _ _ _ _ col (numeric_not_categorical col Hin) Hcat).
  now rewrite fill_frame_get, Hget1.
Qed.

(** ** Further properties of the handler, for any request *)

(** X7: every answer of the endpoint is JSON, either the prediction field
    with status 200 or the detail of an [HTTPException]: no other exception
    leaves the handler. *)
Theorem every_response_is_json (r : Request) :
  (exists y, endpoint r
             = mkResponse 200 (JSON [("predicted_job_satisfaction", JLabel y)])) \/
  (exists code d, endpoint r = mkResponse code (JSON [("detail", JStr d)])).
Proof.
  unfold endpoint.
  destruct (first_violation r) as [d |] eqn:Hv.
  - right. exists 400, d. now rewrite (run_rejected r d Hv).
  - rewrite (run_checked r Hv).
    destruct (normalize (input_frame r) _) as [[e | df] trN].
    + right. destruct e as [code d | cls msg]; cbn; eauto.
    + destruct (preprocessor_transform df) as [e | x]; [right; cbn; eauto |].
      destruct (model_predict x) as [e | [| y ys]]; cbn; eauto.
Qed.

(** X8: the endpoint answers with a prediction [y] only if the request
    passed every check, the normalized frame was handed to the preprocessor
    (once), the preprocessor returned features and the model returned a list
    whose first element is [y]. *)
Theorem prediction_only_after_full_chain (r : Request) (y : Label) :
  endpoint r = mkResponse 200 (JSON [("predicted_job_satisfaction", JLabel y)]) ->
  accepted r /\
  exists df x ys,
    fst (normalize (input_frame r) [Log INFO (DtypesBefore (dtypes (input_frame r)))])
      = inr df /\
    delivered (trace r) = [df] /\
    preprocessor_transform df = inr x /\
    model_predict x = inr (y :: ys).
Proof.
  unfold endpoint, trace.
  destruct (first_violation r) as [d |] eqn:Hv.
  - rewrite (run_rejected r d Hv). discriminate.
  - intros Hresp. split; [now apply accepted_first_violation |].
    rewrite (run_checked r Hv) in Hresp |- *.
    destruct (normalize_trace (input_frame r)
                [Log INFO (DtypesBefore (dtypes (input_frame r)))])
      as (logs & Htr & Hlogs).
    destruct (normalize (input_frame r) _) as [[e | df] trN].
    + destruct e; discriminate.
    + cbn in Htr. subst trN.
      destruct (preprocessor_transform df) as [e | x] eqn:Ht; [discriminate |].
      destruct (model_predict x) as [e | [| y' ys]] eqn:Hp; try discriminate.
      injection Hresp as <-.
      exists df, x, ys. repeat split; try assumption.
      destruct Hlogs as [-> | [[ts ->] | [ts ->]]]; reflexivity.
Qed.

(** X9: in one request the preprocessor is called at most once and the
    model at most once, the model only after the preprocessor returned and
    on what it returned. *)
Theorem artifact_calls_in_order (r : Request) :
  artifact_calls (trace r) = [] \/
  (exists df e, artifact_calls (trace r) = [CallTransform df] /\
                preprocessor_transform df = inl e) \/
  (exists df x, artifact_calls (trace r) = [CallTransform df; CallPredict x] /\
                preprocessor_transform df = inr x).
Proof.
  unfold trace.
  destruct (first_violation r) as [d |] eqn:Hv.
  - left. now rewrite (run_rejected r d Hv).
  - rewrite (run_checked r Hv).
    destruct (normalize_trace (input_frame r)
                [Log INFO (DtypesBefore (dtypes (input_frame r)))])
      as (logs & Htr & Hlogs).
    destruct (normalize (input_frame r) _) as [[e | df] trN]; cbn in Htr; subst trN.
    + left. destruct e as [code d | cls msg];
        destruct Hlogs as [-> | [[ts ->] | [ts ->]]]; reflexivity.
    + destruct (preprocessor_transform df) as [e | x] eqn:Ht.
      * right. left. exists df, e. split; [| exact Ht].
        destruct Hlogs as [-> | [[ts ->] | [ts ->]]]; reflexivity.
      * right. right. exists df, x. split; [| exact Ht].
        destruct (model_predict x) as [e | [| y ys]];
          destruct Hlogs as [-> | [[ts ->] | [ts ->]]]; reflexivity.
Qed.

(** X10: an ERROR record is written to the log exactly when the answer has
    status 500 (integers in the int64 range): a rejected request and a served
    one log no error. *)
Theorem server_faults_are_logged (r : Request) :
  numeric_ints_fit r ->
  existsb is_error_log (trace r) = (status (endpoint r) =? 500).
Proof.
  intros Hfit. unfold endpoint, trace.
  destruct (first_violation r) as [d |] eqn:Hv.
  - now rewrite (run_rejected r d Hv).
  - apply accepted_first_violation in Hv.
    rewrite (run_accepted r Hv Hfit).
    destruct (preprocessor_transform (normalized r)) as [e | x]; [reflexivity |].
    destruct (model_predict x) as [e | [| y ys]]; reflexivity.
Qed.

(** X11: the answer to a request that passes validation does not depend on
    which of the five allowed JobLevel values it carries. *)
Theorem response_ignores_job_level (r : Request) (j : string) :
  accepted r -> In j valid_job_levels ->
  endpoint (with_JobLevel j r) = endpoint r.
Proof.
  intros Hacc Hj.
  assert (Hacc' : accepted (with_JobLevel j r))
    by (destruct Hacc as (_ & Hrest); split; assumption).
  rewrite (endpoint_checked r (proj1 (accepted_first_violation r) Hacc)),
    (endpoint_checked _ (proj1 (accepted_first_violation _) Hacc')).
  destruct Hacc as (Hr & _). now rewrite (normalized_input_job_level r j Hr Hj).
Qed.

(** X12: a NaN in an hour field is read as 0.0: the answer is the one the
    request gets with 0.0 in its place (the checks let a NaN through, and
    the normalizer fills it with 0). *)
Theorem nan_hours_are_read_as_zero (r : Request) (t s p : spec_float) :
  endpoint (with_hours t s p r)
  = endpoint (with_hours (nan_to_zero t) (nan_to_zero s) (nan_to_zero p) r).
Proof.
  assert (Hv : first_violation (with_hours (nan_to_zero t) (nan_to_zero s) (nan_to_zero p) r)
               = first_violation (with_hours t s p r)).
  { unfold first_violation. cbn. now rewrite !float_lt0_nan_to_zero. }
  destruct (first_violation (with_hours t s p r)) as [d |] eqn:Hv0.
  - destruct (rejected_response _ d Hv0) as [-> _].
    destruct (rejected_response _ d Hv) as [-> _]. reflexivity.
  - rewrite (endpoint_checked _ Hv0), (endpoint_checked _ Hv).
    apply accepted_first_violation in Hv0. destruct Hv0 as (Hj & _).
    now rewrite (normalized_input_nan_hours r t s p Hj).
Qed.

End Service.

Arguments Log {Features}.
Arguments CallTransform {Features}.
Arguments CallPredict {Features}.
Arguments delivered {Features}.
Arguments is_artifact_call {Features}.
Arguments artifact_calls {Features}.
Arguments is_error_log {Features}.
Arguments JStr {Label}.
Arguments JLabel {Label}.
Arguments JSON {Label}.
Arguments Text {Label}.
Arguments mkResponse {Label}.
Arguments status {Label}.
Arguments body {Label}.
Arguments detail_of {Label}.
Arguments names_field {Label}.

(** ** Startup *)

(** C10 (amended): the two paths given to [load] are the constants written
    in the source; the environment of the process has no part in them. *)
Theorem artifact_paths_are_constants (Artifact : Type) (w : World Artifact) :
  model_path = "D:/COE64-335/Final Pro/FastAPI/best_random_forest_model.pkl" /\
  preprocessor_path = "D:/COE64-335/Final Pro/FastAPI/preprocessor.pkl" /\
  loaded_paths (snd (startup w)) =
    match files w model_path with
    | inr _ => [model_path; preprocessor_path]
    | inl _ => [model_path]
    end /\
  (forall env, startup (with_environ env w) = startup w).
Proof.
  repeat split. unfold startup.
  destruct (files w model_path); [reflexivity |].
  destruct (files w preprocessor_path); reflexivity.
Qed.

(** C10, counterexample: on a host whose environment names the places of
    the artifacts, and which has them there, the startup still asks for the
    path of the source and fails. *)
Lemma startup_ignores_configuration :
  environ configured_world "MODEL_PATH" = Some "/srv/artifacts/model.pkl" /\
  files configured_world "/srv/artifacts/model.pkl" = inr "model" /\
  loaded_paths (snd (startup configured_world)) =
    ["D:/COE64-335/Final Pro/FastAPI/best_random_forest_model.pkl"] /\
  fst (startup configured_world) = inl (HTTPException 500 detail_startup).
Proof. repeat split. Qed.

(** ** Further properties of the startup *)

(** X13: the startup succeeds exactly when both files load, and then the
    model is the object read from [model_path] and the preprocessor the one
    read from [preprocessor_path]. *)
Theorem startup_succeeds_iff_both_load
  (Artifact : Type) (w : World Artifact) (model preprocessor : Artifact) :
  fst (startup w) = inr (model, preprocessor) <->
  files w model_path = inr model /\ files w preprocessor_path = inr preprocessor.
Proof.
  unfold startup.
  destruct (files w model_path) as [e | m].
  - split; [discriminate | intros [H _]; discriminate].
  - destruct (files w preprocessor_path) as [e | p]; cbn.
    + split; [discriminate | intros [_ H]; discriminate].
    + split.
      * intros H. now injection H as -> ->.
      * intros [Hm Hp]. now injection Hm as ->; injection Hp as ->.
Qed.

(** X14: a failure of either load ends the startup with an [HTTPException]
    of status 500 and one fixed detail; the cause is only logged; and when
    the model does not load, the preprocessor is not read at all. *)
Theorem startup_failure_is_generic (Artifact : Type) (w : World Artifact) (e : exn) :
  (files w model_path = inl e ->
     startup w = (inl (HTTPException 500 detail_startup),
                  [Load model_path; LoadFailed e])) /\
  (forall model, files w model_path = inr model ->
     files w preprocessor_path = inl e ->
     startup w = (inl (HTTPException 500 detail_startup),
                  [Load model_path; Load preprocessor_path; LoadFailed e])).
Proof.
  unfold startup. split.
  - intros ->. reflexivity.
  - intros model -> ->. reflexivity.
Qed.

(** ** The properties at the sample requests *)

Local Abbreviation sample_endpoint T P :=
  (endpoint DataFrame Z T P sample_strtod sample_float_repr sample_bigint).
Local Abbreviation sample_trace T P :=
  (trace DataFrame Z T P sample_strtod sample_float_repr sample_bigint).
Local Abbreviation sample_normalized_input :=
  (normalized_input DataFrame sample_strtod sample_float_repr sample_bigint).
Local Abbreviation sample_body T P :=
  (handler_body DataFrame Z T P sample_strtod sample_float_repr sample_bigint).

Ltac prove_sample :=
  repeat match goal with
         | |- _ /\ _ => split
         | |- In _ _ => vm_compute; auto 10
         | |- in_range _ => split; vm_compute; (let H := fresh in intro H; discriminate H)
         | |- out_of_range _ => (left; vm_compute; reflexivity) || (right; vm_compute; reflexivity)
         | |- ~ _ => let H := fresh in intro H; vm_compute in H; discriminate H
         | |- _ = _ => vm_compute; reflexivity
         end.


Lemma sample_request_accepted : accepted sample_request.
Proof. unfold accepted. prove_sample. Defined.

Lemma sample_request_fits : numeric_ints_fit sample_request.
Proof. unfold numeric_ints_fit. prove_sample. Defined.

Lemma sample_request_normalized :
  sample_normalized_input sample_request = inr (normalized sample_request).
Proof. vm_compute. reflexivity. Defined.








(** C5 at JobLevel=Manager. *)
Lemma invalid_job_level_rejected_witness :
  status (sample_endpoint sample_transform sample_predict manager_request) = 400 /\
  detail_of (sample_endpoint sample_transform sample_predict manager_request)
    = Some detail_JobLevel /\
  names_field (sample_endpoint sample_transform sample_predict manager_request)
    "JobLevel" = true /\
  existsb is_artifact_call
    (sample_trace sample_transform sample_predict manager_request) = false.
Proof.
  apply (invalid_job_level_rejected DataFrame Z sample_transform sample_predict
           sample_strtod sample_float_repr sample_bigint manager_request).
  cbn. intuition discriminate.
Defined.

(** C6, counterexample: with JobLevel=Manager and WorkEnv=6 the answer is
    400, and its detail is the one of JobLevel: it names none of WorkEnv,
    Workload and WLB. *)
Lemma range_fault_behind_job_level :
  out_of_range (WorkEnv manager_workenv6_request) /\
  status (sample_endpoint sample_transform sample_predict manager_workenv6_request) = 400 /\
  detail_of (sample_endpoint sample_transform sample_predict manager_workenv6_request)
    = Some detail_JobLevel /\
  names_field (sample_endpoint sample_transform sample_predict manager_workenv6_request)
    "WorkEnv" = false /\
  names_field (sample_endpoint sample_transform sample_predict manager_workenv6_request)
    "Workload" = false /\
  names_field (sample_endpoint sample_transform sample_predict manager_workenv6_request)
    "WLB" = false.
Proof. prove_sample. Qed.

(** C6 (amended) at WorkEnv=6, the other fields as in the sample request. *)
Lemma range_fault_rejected_witness :
  out_of_range (WorkEnv (with_WorkEnv 6 sample_request)) /\
  status (sample_endpoint sample_transform sample_predict
            (with_WorkEnv 6 sample_request)) = 400 /\
  names_field (sample_endpoint sample_transform sample_predict
                 (with_WorkEnv 6 sample_request)) "WorkEnv" = true.
Proof.
  assert (Hout : out_of_range (WorkEnv (with_WorkEnv 6 sample_request)))
    by prove_sample.
  destruct (range_fault_rejected DataFrame Z sample_transform sample_predict
              sample_strtod sample_float_repr sample_bigint
              (with_WorkEnv 6 sample_request) (or_introl Hout))
    as (Hstatus & _ & Hnames).
  split; [exact Hout |]. split; [exact Hstatus |].
  apply Hnames; [prove_sample | exact Hout].
Defined.

(** C7, counterexample: with WorkEnv=6 and SleepHours=-1.0 the answer is
    400, and its detail is the one of WorkEnv: it names none of the three
    hour fields. *)
Lemma negative_hours_behind_range_fault :
  negative (SleepHours workenv6_short_sleep_request) /\
  status (sample_endpoint sample_transform sample_predict
            workenv6_short_sleep_request) = 400 /\
  detail_of (sample_endpoint sample_transform sample_predict
               workenv6_short_sleep_request) = Some detail_WorkEnv /\
  names_field (sample_endpoint sample_transform sample_predict
                 workenv6_short_sleep_request) "SleepHours" = false /\
  names_field (sample_endpoint sample_transform sample_predict
                 workenv6_short_sleep_request) "TrainingHoursPerYear" = false /\
  names_field (sample_endpoint sample_transform sample_predict
                 workenv6_short_sleep_request) "PhysicalActivityHours" = false.
Proof. unfold negative. prove_sample. Qed.

(** C7 (amended) at SleepHours=-1.0, the other fields as in the sample
    request. *)
Lemma negative_hours_rejected_witness :
  negative (SleepHours (with_SleepHours (SFopp (f64 1)) sample_request)) /\
  status (sample_endpoint sample_transform sample_predict
            (with_SleepHours (SFopp (f64 1)) sample_request)) = 400 /\
  names_field (sample_endpoint sample_transform sample_predict
                 (with_SleepHours (SFopp (f64 1)) sample_request)) "SleepHours" = true.
Proof.
  assert (Hneg : negative (SleepHours (with_SleepHours (SFopp (f64 1)) sample_request)))
    by (unfold negative; prove_sample).
  destruct (negative_hours_rejected DataFrame Z sample_transform sample_predict
              sample_strtod sample_float_repr sample_bigint
              (with_SleepHours (SFopp (f64 1)) sample_request)
              (or_intror (or_introl Hneg)))
    as (Hstatus & Hnames).
  split; [exact Hneg |]. split; [exact Hstatus |].
  apply Hnames; try exact Hneg; prove_sample.
Defined.



(** C9 at the sample request, with a preprocessor that raises, a model that
    raises, and a model that returns no row; and at Age = 10^400, where the
    numeric coercion raises. *)
Lemma server_faults_are_generic_witness :
  sample_endpoint failing_transform sample_predict sample_request
    = mkResponse 500 (JSON [("detail", JStr detail_transform)]) /\
  sample_endpoint sample_transform failing_predict sample_request
    = mkResponse 500 (JSON [("detail", JStr detail_predict)]) /\
  sample_endpoint sample_transform empty_predict sample_request
    = mkResponse 500 (JSON [("detail", JStr detail_internal)]) /\
  sample_endpoint sample_transform sample_predict huge_age_request
    = mkResponse 500 (JSON [("detail", JStr detail_internal)]).
Proof.
  assert (Hhuge : accepted huge_age_request) by (unfold accepted; prove_sample).
  assert (Hraise : sample_normalized_input huge_age_request
                   = inl (Exception "OverflowError" "int too large to convert to float"))
    by (vm_compute; reflexivity).
  assert (Hbody : sample_body sample_transform empty_predict sample_request []
                  = (inl (Exception "IndexError" "list index out of range"),
                     snd (sample_body sample_transform empty_predict sample_request [])))
    by (vm_compute; reflexivity).
  split; [| split; [| split]].
  - exact (proj1 (proj1 (server_faults_are_generic DataFrame Z failing_transform
                           sample_predict sample_strtod sample_float_repr sample_bigint
                           sample_request sample_request_accepted)
                    _ _ sample_request_normalized eq_refl)).
  - exact (proj1 (proj1 (proj2 (server_faults_are_generic DataFrame Z sample_transform
                                  failing_predict sample_strtod sample_float_repr
                                  sample_bigint sample_request sample_request_accepted))
                    _ (normalized sample_request) _ sample_request_normalized
                    eq_refl eq_refl)).
  - exact (proj1 (proj1 (proj2 (proj2 (server_faults_are_generic DataFrame Z
                                         sample_transform empty_predict sample_strtod
                                         sample_float_repr sample_bigint sample_request
                                         sample_request_accepted)))
                    _ _ _ Hbody)).
  - exact (proj1 (proj2 (proj2 (proj2 (server_faults_are_generic DataFrame Z sample_transform sample_predict sample_strtod sample_float_repr sample_bigint huge_age_request
                                         Hhuge)))
                    _ _ Hraise)).
Defined.

(** A NaN passes the checks, which only reject [x < 0]: the request is
    accepted without satisfying [0 <= x], and the NaN reaches the
    preprocessor as 0. *)
Remark nan_hours_pass_validation :
  accepted nan_sleep_request /\
  ~ satisfies_constraints nan_sleep_request /\
  sample_endpoint sample_transform sample_predict nan_sleep_request
    = mkResponse 200 (JSON [("predicted_job_satisfaction", JLabel 4)]) /\
  exists df,
    delivered (sample_trace sample_transform sample_predict nan_sleep_request) = [df] /\
    get_col "SleepHours" df = Some (VFloat zero).
Proof.
  split; [unfold accepted; prove_sample |].
  split.
  - intros (_ & _ & _ & _ & _ & Hs & _). vm_compute in Hs. discriminate Hs.
  - split; [vm_compute; reflexivity |].
    eexists. split; [vm_compute; reflexivity | reflexivity].
Qed.

(** ** The further properties at the sample requests *)

Local Abbreviation sample_normalize :=
  (normalize DataFrame sample_strtod sample_float_repr sample_bigint).

Lemma sample_frame_normalized :
  sample_normalize (input_frame sample_request) []
  = (inr (normalized sample_request),
     snd (sample_normalize (input_frame sample_request) [])).
Proof. vm_compute. reflexivity. Defined.

(** X1 at the frame of the sample request. *)
Lemma normalize_keeps_columns_witness :
  map fst (normalized sample_request) = map fst (input_frame sample_request).
Proof.
  exact (normalize_keeps_columns DataFrame sample_strtod sample_float_repr sample_bigint
           _ _ _ _ sample_frame_normalized).
Defined.

(** X2 at the frame of the sample request and the column WLB. *)
Lemma normalize_requires_columns_witness :
  exists v, get_col "WLB" (input_frame sample_request) = Some v.
Proof.
  apply (normalize_requires_columns DataFrame sample_strtod sample_float_repr sample_bigint
           _ _ _ _ "WLB" sample_frame_normalized).
  vm_compute. auto 20.
Defined.

(** X3 at the frame of the sample request. *)
Lemma normalize_leaves_no_nan_witness :
  any_null (normalized sample_request) = false.
Proof.
  exact (normalize_leaves_no_nan DataFrame sample_strtod sample_float_repr sample_bigint
           _ _ _ _ sample_frame_normalized).
Defined.

(** X4 at the frame of the sample request and the column Stress. *)
Lemma normalize_passes_other_columns_witness :
  get_col "Stress" (normalized sample_request)
  = option_map fill_cell (get_col "Stress" (input_frame sample_request)).
Proof.
  eapply (normalize_passes_other_columns DataFrame sample_strtod sample_float_repr
           sample_bigint _ _ [] _ "Stress").
  - cbn. intuition discriminate.
  - cbn. intuition discriminate.
  - exact sample_frame_normalized.
Defined.

(** X5 at the frame of the sample request and the column WorkEnv. *)
Lemma normalize_categorical_as_str_witness :
  get_col "WorkEnv" (normalized sample_request)
  = Some (astype_str sample_float_repr (fill_cell (VInt 3))).
Proof.
  eapply (normalize_categorical_as_str DataFrame sample_strtod sample_float_repr
           sample_bigint (input_frame sample_request) _ [] _ "WorkEnv" (VInt 3)).
  - cbn. auto 10.
  - reflexivity.
  - exact sample_frame_normalized.
Defined.

(** X6 at the frame of the sample request and the column Age. *)
Lemma normalize_keeps_numbers_witness :
  get_col "Age" (normalized sample_request) = Some (fill_cell (VInt 30)).
Proof.
  eapply (normalize_keeps_numbers DataFrame sample_strtod sample_float_repr
           sample_bigint (input_frame sample_request) _ [] _ "Age" (VInt 30)).
  - cbn. auto 10.
  - reflexivity.
  - reflexivity.
  - exact sample_frame_normalized.
Defined.

(** X8 at the sample request. *)
Lemma prediction_only_after_full_chain_witness :
  accepted sample_request /\
  exists df x ys,
    fst (sample_normalize (input_frame sample_request)
           [Log INFO (DtypesBefore DataFrame (dtypes (input_frame sample_request)))])
      = inr df /\
    delivered (sample_trace sample_transform sample_predict sample_request) = [df] /\
    sample_transform df = inr x /\
    sample_predict x = inr (4 :: ys).
Proof.
  apply (prediction_only_after_full_chain DataFrame Z sample_transform sample_predict
           sample_strtod sample_float_repr sample_bigint sample_request 4).
  vm_compute. reflexivity.
Defined.

(** X10 at the sample request with a preprocessor that raises. *)
Lemma server_faults_are_logged_witness :
  existsb is_error_log (sample_trace failing_transform sample_predict sample_request)
  = (status (sample_endpoint failing_transform sample_predict sample_request) =? 500).
Proof.
  exact (server_faults_are_logged DataFrame Z failing_transform sample_predict
           sample_strtod sample_float_repr sample_bigint sample_request
           sample_request_fits).
Defined.

(** X11 at the sample request, sent with JobLevel=Lead. *)
Lemma response_ignores_job_level_witness :
  sample_endpoint sample_transform sample_predict (with_JobLevel "Lead" sample_request)
  = sample_endpoint sample_transform sample_predict sample_request.
Proof.
  apply (response_ignores_job_level DataFrame Z sample_transform sample_predict sample_strtod sample_float_repr sample_bigint sample_request "Lead").
  - exact sample_request_accepted.
  - cbn. auto 10.
Defined.

(** X12 at the sample request with SleepHours=NaN. *)
Lemma nan_hours_are_read_as_zero_witness :
  sample_endpoint sample_transform sample_predict
    (with_hours (f64 12) S754_nan (f64 2) sample_request)
  = sample_endpoint sample_transform sample_predict
      (with_hours (nan_to_zero (f64 12)) (nan_to_zero S754_nan) (nan_to_zero (f64 2))
         sample_request).
Proof.
  exact (nan_hours_are_read_as_zero DataFrame Z sample_transform sample_predict sample_strtod sample_float_repr sample_bigint sample_request (f64 12) S754_nan (f64 2)).
Defined.

(** X13 at a host that has both artifacts. *)
Lemma startup_succeeds_iff_both_load_witness :
  fst (startup working_world) = inr ("model", "preprocessor").
Proof.
  apply (proj2 (startup_succeeds_iff_both_load string working_world
                  "model" "preprocessor")).
  split; reflexivity.
Defined.

(** X14 at a host without the model, and at one with the model only. *)
Lemma startup_failure_is_generic_witness :
  startup configured_world
    = (inl (HTTPException 500 detail_startup),
       [Load model_path; LoadFailed (Exception "FileNotFoundError" model_path)]) /\
  startup model_only_world
    = (inl (HTTPException 500 detail_startup),
       [Load model_path; Load preprocessor_path;
        LoadFailed (Exception "FileNotFoundError" preprocessor_path)]).
Proof.
  split.
  - exact (proj1 (startup_failure_is_generic string configured_world _) eq_refl).
  - exact (proj2 (startup_failure_is_generic string model_only_world _)
             "model" eq_refl eq_refl).
Defined.
